(** * App_flotacion: the silica-concentrate predictor page (main.py)

    A shallow embedding of the Streamlit script [main.py]: the cached model
    loader [load_model], the three sidebar sliders, and the prediction block
    guarded by [if model is not None] with its [try/except Exception].

    The script talks to four libraries.  They are modelled by what the script
    can observe of them:
    - [st.slider] checks the types of its numeric arguments before it draws
      the control, and raises when the default is an [int] and the bounds
      and the step are [float]s;
    - [joblib.load] reads a path of the filesystem and returns the pickled
      object or raises;
    - [st.cache_resource] memoises a function by its argument, stores the
      returned value together with the elements it rendered, and stores
      nothing when the function raises;
    - [pd.DataFrame] builds a table from rows and column labels;
    - [model.predict] is a method of the object that was unpickled.
    Python floats are binary64 numbers: the kernel's primitive floats. *)

From Stdlib Require Import ZArith String Ascii List Lia.
From Stdlib Require Import PrimFloat SpecFloat FloatOps DecimalString.
From stdpp Require Import gmap strings.

Set Warnings "-inexact-float".

Local Open Scope string_scope.
Local Open Scope list_scope.

(** ** Python values, exceptions and results *)

Module Py.

(** The exception classes the script can meet.  [KeyboardInterrupt] and
    [SystemExit] derive from [BaseException] only; the others derive from
    [Exception]. *)
Inductive ExcClass : Type :=
| FileNotFoundError
| PermissionError
| EOFError
| UnpicklingError
| ValueError
| TypeError
| IndexError
| AttributeError
| KeyError
| RuntimeError
| MemoryError
| StreamlitAPIException
| KeyboardInterrupt
| SystemExit.

(** [isinstance(e, Exception)] *)
Definition isinstance_Exception (c : ExcClass) : bool :=
  match c with
  | KeyboardInterrupt | SystemExit => false
  | _ => true
  end.

(** [isinstance(e, FileNotFoundError)] *)
Definition isinstance_FileNotFoundError (c : ExcClass) : bool :=
  match c with
  | FileNotFoundError => true
  | _ => false
  end.

(** An exception object: its class and the text [str(e)] gives. *)
Record PyExc : Type := mkExc { exc_class : ExcClass; exc_str : string }.

(** A call either returns or raises. *)
Inductive PyResult (A : Type) : Type :=
| Return (a : A)
| Raise (e : PyExc).

Arguments Return {A} a.
Arguments Raise {A} e.

(** Numeric literals of the source: [65] is an [int], [62.05] a [float]. *)
Inductive PyNum : Type :=
| PyInt (z : Z)
| PyFloat (f : float).

(** [float(n)] *)
Definition float_of_num (n : PyNum) : float :=
  match n with
  | PyInt z => SF2Prim (binary_normalize prec emax z 0 false)
  | PyFloat f => f
  end.

(** The output of an inference call: a Python list or a NumPy array of
    floats.  The two differ in the message of their [IndexError]. *)
Inductive PySeq : Type :=
| PyList (xs : list float)
| NdArray (xs : list float).

Definition seq_items (s : PySeq) : list float :=
  match s with
  | PyList xs => xs
  | NdArray xs => xs
  end.

(** [s[0]] *)
Definition getitem0 (s : PySeq) : PyResult float :=
  match s with
  | PyList (x :: _) => Return x
  | NdArray (x :: _) => Return x
  | PyList [] => Raise (mkExc IndexError "list index out of range")
  | NdArray [] =>
      Raise (mkExc IndexError "index 0 is out of bounds for axis 0 with size 0")
  end.

End Py.

Export Py.

(** ** The format specification [:.2f]

    [format(x, '.2f')] prints the decimal expansion of the binary value of
    [x], correctly rounded to two places, ties to even; the sign is printed
    whenever the sign bit is set, also before [0.00]. *)

Module Fmt.

Local Open Scope Z_scope.

(** The integer nearest to [num / den], ties to even ([0 <= num], [0 < den]). *)
Definition round_half_even (num den : Z) : Z :=
  let q := num / den in
  let r := num mod den in
  match 2 * r ?= den with
  | Lt => q
  | Gt => q + 1
  | Eq => if Z.even q then q else q + 1
  end.

(** [m * 2^e] in hundredths, rounded. *)
Definition hundredths (m : positive) (e : Z) : Z :=
  if 0 <=? e then Z.pos m * 2 ^ e * 100
  else round_half_even (Z.pos m * 100) (2 ^ (- e)).

Definition digit (d : Z) : ascii := ascii_of_nat (48 + Z.to_nat d).

Definition is_digit (a : ascii) : bool :=
  let n := nat_of_ascii a in (48 <=? n)%nat && (n <=? 57)%nat.

Fixpoint all_digits (s : string) : bool :=
  match s with
  | EmptyString => true
  | String a rest => is_digit a && all_digits rest
  end.

(** The decimal numeral of a natural number, ["0"] for zero. *)
Definition decimal (n : Z) : string :=
  NilZero.string_of_uint (N.to_uint (Z.to_N n)).

Definition sign_text (neg : bool) : string := if neg then "-" else "".

(** A count [h] of hundredths printed with two decimals. *)
Definition fixed2 (neg : bool) (h : Z) : string :=
  sign_text neg +:+ decimal (h / 100) +:+ "."
    +:+ String (digit (h mod 100 / 10)) (String (digit (h mod 10)) "").

Definition format_2f (x : float) : string :=
  match Prim2SF x with
  | S754_nan => "nan"
  | S754_infinity s => sign_text s +:+ "inf"
  | S754_zero s => fixed2 s 0
  | S754_finite s m e => fixed2 s (hundredths m e)
  end.

(** [math.isfinite(x)] *)
Definition isfinite (x : float) : bool :=
  match Prim2SF x with
  | S754_zero _ | S754_finite _ _ _ => true
  | _ => false
  end.

End Fmt.

(** ** Tables and models *)

(** A [pandas.DataFrame] of floats: column labels and rows. *)
Record DataFrame : Type := mkFrame { columns : list string; rows : list (list float) }.

(** A deserialised regression object, seen through its [predict] method. *)
Record Model : Type := mkModel { predict : DataFrame -> PyResult PySeq }.

Module pd.

Definition width (data : list (list float)) : nat :=
  fold_right (fun r w => Nat.max (length r) w) 0%nat data.

(** Short rows are filled with NaN up to the widest one. *)
Definition pad (w : nat) (r : list float) : list float :=
  r ++ repeat nan (w - length r).

Definition decimal_nat (n : nat) : string := Fmt.decimal (Z.of_nat n).

(** [pd.DataFrame(data, columns=cols)] for a list of rows: the number of
    labels must be the width of the data. *)
Definition DataFrame (data : list (list float)) (cols : list string)
  : PyResult DataFrame :=
  match data with
  | [] => Return (mkFrame cols [])
  | _ =>
      if Nat.eqb (length cols) (width data)
      then Return (mkFrame cols (map (pad (width data)) data))
      else Raise (mkExc ValueError
                    (decimal_nat (length cols) +:+ " columns passed, passed data had "
                       +:+ decimal_nat (width data) +:+ " columns"))
  end.

End pd.

(** ** What a run of the script shows and does *)

(** The keyword arguments of one [st.slider] call. *)
Record SliderArgs : Type := mkSlider {
  label : string;
  min_value : PyNum;
  max_value : PyNum;
  value : PyNum;
  step : PyNum
}.

Inductive Element : Type :=
| StPageConfig (page_title page_icon layout : string)
| StHeader (body : string)
| StMarkdown (body : string)
| StCaption (body : string)
| StTitle (body : string)
| StSubheader (body : string)
| StSuccess (body : string)
| StInfo (body : string)
| StError (body : string)
| StWarning (body : string)
| StDivider
| StSlider (args : SliderArgs)
| StButton (text : string) (type : string).

Inductive Container : Type :=
| Main
| Sidebar
| Expander (title : string).

(** The observable steps of a run, in order. *)
Inductive Event : Type :=
| Render (c : Container) (e : Element)
| JoblibLoad (path : string)
| Predict (df : DataFrame).

(** A file of the filesystem as [joblib.load] sees it: a pickle of an object
    (the object may be [None]), or bytes whose deserialisation raises [e]. *)
Inductive File : Type :=
| Pickle (obj : option Model)
| Corrupt (e : PyExc).

(** An entry of the resource cache: the returned value and the elements
    the function rendered, which a hit renders again. *)
Record CachedResult : Type := mkCached {
  cached_value : option Model;
  cached_messages : list (Container * Element)
}.

(** ** The script monad: filesystem, process-wide cache, trace, exceptions *)

Definition M (A : Type) : Type :=
  gmap string File -> gmap string CachedResult ->
  PyResult A * gmap string CachedResult * list Event.

Definition ret {A} (a : A) : M A := fun _ c => (Return a, c, []).

Definition bind {A B} (m : M A) (k : A -> M B) : M B :=
  fun fs c =>
    match m fs c with
    | (Return a, c1, t1) =>
        match k a fs c1 with
        | (r, c2, t2) => (r, c2, t1 ++ t2)
        end
    | (Raise e, c1, t1) => (Raise e, c1, t1)
    end.

Declare Scope py_scope.
Delimit Scope py_scope with py.
Notation "x <- m ;; k" := (bind m (fun x => k))
  (at level 100, m at next level, right associativity) : py_scope.
Notation "m ;; k" := (bind m (fun _ => k))
  (at level 100, right associativity) : py_scope.
Local Open Scope py_scope.

(** A library call that touches neither the cache nor the trace. *)
Definition lift {A} (r : PyResult A) : M A := fun _ c => (r, c, []).

Definition emit (ev : Event) : M unit := fun _ c => (Return tt, c, [ev]).

(** [try: body  except <cls> as e: handler e] *)
Definition try_except {A} (body : M A) (cls : ExcClass -> bool)
  (handler : PyExc -> M A) : M A :=
  fun fs c =>
    match body fs c with
    | (Return a, c1, t1) => (Return a, c1, t1)
    | (Raise e, c1, t1) =>
        if cls (exc_class e)
        then match handler e fs c1 with
             | (r, c2, t2) => (r, c2, t1 ++ t2)
             end
        else (Raise e, c1, t1)
    end.

(** [with <container>:] *)
Definition place (k : Container) (ev : Event) : Event :=
  match ev with
  | Render Main e => Render k e
  | _ => ev
  end.

Definition within {A} (k : Container) (body : M A) : M A :=
  fun fs c =>
    match body fs c with
    | (r, c1, t1) => (r, c1, map (place k) t1)
    end.

(** The elements of a trace, with their containers. *)
Definition recorded (t : list Event) : list (Container * Element) :=
  flat_map (fun ev => match ev with Render k e => [(k, e)] | _ => [] end) t.

Definition replay (msgs : list (Container * Element)) : list Event :=
  map (fun m => Render (fst m) (snd m)) msgs.

(** ** Streamlit calls *)

Definition st_set_page_config (page_title page_icon layout : string) : M unit :=
  emit (Render Main (StPageConfig page_title page_icon layout)).
Definition st_header (body : string) : M unit := emit (Render Main (StHeader body)).
Definition st_markdown (body : string) : M unit := emit (Render Main (StMarkdown body)).
Definition st_caption (body : string) : M unit := emit (Render Main (StCaption body)).
Definition st_title (body : string) : M unit := emit (Render Main (StTitle body)).
Definition st_subheader (body : string) : M unit := emit (Render Main (StSubheader body)).
Definition st_success (body : string) : M unit := emit (Render Main (StSuccess body)).
Definition st_info (body : string) : M unit := emit (Render Main (StInfo body)).
Definition st_error (body : string) : M unit := emit (Render Main (StError body)).
Definition st_warning (body : string) : M unit := emit (Render Main (StWarning body)).
Definition st_divider : M unit := emit (Render Main StDivider).

Definition is_int (n : PyNum) : bool :=
  match n with
  | PyInt _ => true
  | PyFloat _ => false
  end.

Definition type_name (n : PyNum) : string :=
  match n with
  | PyInt _ => "int"
  | PyFloat _ => "float"
  end.

Definition newline : string := String (ascii_of_nat 10) "".

(** The two type errors of [st.slider].  By the time of the second check the
    single default has been put in a list, which is the type the message
    names. *)
Definition slider_args_error (args : SliderArgs) : PyExc :=
  mkExc StreamlitAPIException
    ("Slider value arguments must be of matching types."
       +:+ newline +:+ "`min_value` has " +:+ type_name (min_value args) +:+ " type."
       +:+ newline +:+ "`max_value` has " +:+ type_name (max_value args) +:+ " type."
       +:+ newline +:+ "`step` has " +:+ type_name (step args) +:+ " type.").

Definition slider_type_error (args : SliderArgs) : PyExc :=
  mkExc StreamlitAPIException
    ("Both value and arguments must be of the same type."
       +:+ newline +:+ "`value` has list type."
       +:+ newline +:+ "`min_value` has " +:+ type_name (min_value args) +:+ " type."
       +:+ newline +:+ "`max_value` has " +:+ type_name (max_value args) +:+ " type.").

(** [st.slider(...)] with numeric arguments.  [min_value], [max_value] and
    [step] must be all [int]s or all [float]s, and [value] must be of their
    kind; otherwise the call raises and draws nothing.  When the types agree
    the control is drawn and the call returns the number it holds in this
    run, [held].  (The checks that follow in the library, on the range of
    the default and on the step, are not modelled: no call of the script
    passes the type check.) *)
Definition st_slider (args : SliderArgs) (held : float) : M float :=
  let slider_args := [min_value args; max_value args; step args] in
  let int_args := forallb is_int slider_args in
  let float_args := forallb (fun a => negb (is_int a)) slider_args in
  if negb int_args && negb float_args then lift (Raise (slider_args_error args))
  else
    let all_ints := is_int (value args) && int_args in
    let all_floats := negb (is_int (value args)) && float_args in
    if negb all_ints && negb all_floats then lift (Raise (slider_type_error args))
    else (emit (Render Main (StSlider args)) ;; ret held).

(** [st.button(text, type=...)] draws the button and returns whether this
    run was started by a click on it. *)
Definition st_button (text type : string) (clicked : bool) : M bool :=
  emit (Render Main (StButton text type)) ;; ret clicked.

(** [@st.cache_resource]: a hit returns the stored value and renders the
    stored elements again, without running [f]; a miss runs [f] and stores
    what it returned; when [f] raises nothing is stored. *)
Definition cache_resource (f : string -> M (option Model)) (arg : string)
  : M (option Model) :=
  fun fs c =>
    match c !! arg with
    | Some hit => (Return (cached_value hit), c, replay (cached_messages hit))
    | None =>
        match f arg fs c with
        | (Return v, c1, t1) =>
            (Return v, <[arg := mkCached v (recorded t1)]> c1, t1)
        | (Raise e, c1, t1) => (Raise e, c1, t1)
        end
    end.

(** ** joblib *)

Module joblib.

Definition load (path : string) : M (option Model) :=
  fun fs c =>
    match fs !! path with
    | None =>
        (Raise (mkExc FileNotFoundError
                  ("[Errno 2] No such file or directory: '" +:+ path +:+ "'")),
         c, [JoblibLoad path])
    | Some (Pickle obj) => (Return obj, c, [JoblibLoad path])
    | Some (Corrupt e) => (Raise e, c, [JoblibLoad path])
    end.

End joblib.

(** ** main.py *)

(** The widget state of one run: what the three sliders would hold and
    whether the button was clicked. *)
Record Widgets : Type := mkWidgets {
  iron_held : float;
  air_held : float;
  amina_held : float;
  clicked : bool
}.

Definition load_model_undecorated (model_path : string) : M (option Model) :=
  try_except
    (model <- joblib.load model_path ;;
     ret model)
    isinstance_FileNotFoundError
    (fun _ =>
       st_error ("Error: No se encontró el archivo del modelo en " +:+ model_path
                   +:+ ". Asegúrate de que el archivo del modelo esté en el directorio correcto.") ;;
       ret None).

Definition load_model : string -> M (option Model) :=
  cache_resource load_model_undecorated.

Definition iron_slider : SliderArgs :=
  mkSlider " ⛏️🪨Concentrado de hierro (%)"
    (PyFloat 62.05) (PyFloat 68.01) (PyInt 65) (PyFloat 0.1).

Definition air_slider : SliderArgs :=
  mkSlider "🌬️🫧🌀Flujo de aire - Columna de flotación 01"
    (PyFloat 175.84734) (PyFloat 372.44264) (PyInt 200) (PyFloat 0.1).

Definition amina_slider : SliderArgs :=
  mkSlider "🧪💧⚙️Flujo de Amina"
    (PyFloat 241.70237) (PyFloat 739.304) (PyInt 350) (PyFloat 0.1).

Definition sidebar (w : Widgets) : M (float * float * float) :=
  within Sidebar
    (st_header "⚙️ Parámetros de Entrada" ;;
     st_markdown "
    Ajusta los deslizadores para que coincidan con los parámetros operativos del proceso de flotación.
    " ;;
     iron <- st_slider iron_slider (iron_held w) ;;
     st_caption "Representa la fracción del mineral que ha sido recuperada en la espuma (froth) después de la separación" ;;
     air <- st_slider air_slider (air_held w) ;;
     st_caption "Cantidad de aire que se inyecta a través del sistema de dispersión en la columna" ;;
     amina <- st_slider amina_slider (amina_held w) ;;
     st_caption "Representa la dosificación de reactivo colector del tipo amina que se alimenta a la columna" ;;
     ret (iron, air, amina)).

Definition main_header : M unit :=
  st_title "📊🧪🫧 Predictor de Concentrado de Sílice (%) en un proceso de Flotación" ;;
  st_markdown "
¡Bienvenido! Esta aplicación usa un modelo de machine learning para predecir el Concentrado de Sílice (%) en flotación a partir de tres variables operativas clave: Concentrado de hierro (%), Flujo de aire – Columna de flotación 01 y Flujo de Amina.

**Esta herramienta te ayuda a:**
- **Optimizar** los setpoints de aire y amina manteniendo la calidad del concentrado de hierro.
- **Predecir** cómo cambiará el %SiO₂ ante ajustes en flujo de aire y dosificación de amina.
- **Solucionar** variaciones del proceso con escenarios “what-if” y análisis de sensibilidad.

**Cómo usarla:**
- **Establece** Concentrado de hierro (%) actual.
- **Define** Flujo de aire – Columna 01.
- **Indica** Flujo de Amina (como solución o equivalente en masa).
- **Obtén** la predicción de %SiO₂, con intervalo de confianza y sugerencias operativas.

".

Definition input_columns : list string :=
  ["% Iron Concentrate"; "Flotation Column 01 Air Flow"; "Amina Flow"].

Definition model_predict (model : Model) (df : DataFrame) : M PySeq :=
  emit (Predict df) ;; lift (predict model df).

Definition warning_text : string :=
  "El modelo no pudo ser cargado. Por favor, verifica la ruta del archivo del modelo.".

Definition error_prefix : string := "Ocurrió un error durante la predicción: ".

Definition success_text (x : float) : string :=
  "**Concentrado Predicho:** `" +:+ Fmt.format_2f x +:+ "%`".

(** Lines 88 to 108: the prediction block. *)
Definition prediction_logic (model : option Model) (w : Widgets)
  (iron air amina : float) : M unit :=
  match model with
  | Some model =>
      pressed <- st_button "🚀 Predecir Concentrado de Sílice (%)" "primary" (clicked w) ;;
      if pressed : bool then
        df_input <- lift (pd.DataFrame [[iron; air; amina]] input_columns) ;;
        try_except
          (prediction_value <- model_predict model df_input ;;
           st_subheader "📈 Resultado de la Predicción" ;;
           first <- lift (getitem0 prediction_value) ;;
           st_success (success_text first) ;;
           st_info "Este valor representa el porcentaje del concentrado de sílice estimado.")
          isinstance_Exception
          (fun e => st_error (error_prefix +:+ exc_str e))
      else ret tt
  | None => st_warning warning_text
  end.

Definition about : M unit :=
  within (Expander "ℹ️ Sobre la Aplicación")
    (st_markdown "
    **¿Cómo funciona?**

    1.  **Datos de Entrada:** Proporcionas los parámetros operativos clave usando los deslizadores en la barra lateral.
    2.  **Predicción:** El modelo de machine learning pre-entrenado recibe estas entradas y las analiza basándose en los patrones que aprendió de datos históricos.
    3.  **Resultado:** La aplicación muestra el rendimiento final predicho como un porcentaje.

    **Detalles del Modelo:**

    * **Tipo de Modelo:** `Regression Model` (XGBoost Optimizado)
    * **Propósito:** Predecir el valor continuo del porcentaje del concentrado de sílice.
    * **Características Usadas:** Concentrado de hierro, Flujo de aire – Columna 01 y Flujo de Amina.
    ").

Definition artifact_path : string := "modelo.joblib".

(** The whole script, top to bottom. *)
Definition script (w : Widgets) : M unit :=
  st_set_page_config
    "Predictor de Concentrado de Sílice (%) en un proceso de Flotación"
    "📊🧪🫧" "wide" ;;
  model <- load_model artifact_path ;;
  inputs <- sidebar w ;;
  main_header ;;
  (let '(iron, air, amina) := inputs in prediction_logic model w iron air amina) ;;
  st_divider ;;
  about.

(** The process: the script runs once per interaction, each time against the
    filesystem of the moment, and the resource cache lives across the runs. *)
Fixpoint session (runs : list (gmap string File * Widgets))
  (c : gmap string CachedResult)
  : list (PyResult unit * list Event) * gmap string CachedResult :=
  match runs with
  | [] => ([], c)
  | (fs, w) :: rest =>
      match script w fs c with
      | (r, c1, t1) =>
          match session rest c1 with
          | (outs, c2) => ((r, t1) :: outs, c2)
          end
      end
  end.

(** A sequence of [load_model] calls of one process. *)
Fixpoint loads (calls : list (gmap string File * string))
  (c : gmap string CachedResult)
  : list (PyResult (option Model) * list Event) * gmap string CachedResult :=
  match calls with
  | [] => ([], c)
  | (fs, path) :: rest =>
      match load_model path fs c with
      | (r, c1, t1) =>
          match loads rest c1 with
          | (outs, c2) => ((r, t1) :: outs, c2)
          end
      end
  end.

(** ** Reading a trace *)

Definition predict_calls (t : list Event) : list DataFrame :=
  flat_map (fun ev => match ev with Predict df => [df] | _ => [] end) t.

Definition fs_reads (t : list Event) : list string :=
  flat_map (fun ev => match ev with JoblibLoad p => [p] | _ => [] end) t.

Definition rendered (t : list Event) : list Element :=
  flat_map (fun ev => match ev with Render _ e => [e] | _ => [] end) t.

Definition sliders_of (t : list Event) : list SliderArgs :=
  flat_map (fun ev => match ev with Render _ (StSlider a) => [a] | _ => [] end) t.

(** A widget state at the [value] arguments of the three calls, as floats. *)
Definition default_widgets (click : bool) : Widgets :=
  mkWidgets (float_of_num (value iron_slider)) (float_of_num (value air_slider))
    (float_of_num (value amina_slider)) click.

(** The fixed parts of the page. *)
Definition page_config_events : list Event :=
  snd (st_set_page_config
         "Predictor de Concentrado de Sílice (%) en un proceso de Flotación"
         "📊🧪🫧" "wide" ∅ ∅).

(** What the sidebar draws before its first slider raises. *)
Definition sidebar_events : list Event := snd (sidebar (default_widgets false) ∅ ∅).

Definition not_found_text (path : string) : string :=
  "Error: No se encontró el archivo del modelo en " +:+ path
    +:+ ". Asegúrate de que el archivo del modelo esté en el directorio correcto.".

Definition button_event : Event :=
  Render Main (StButton "🚀 Predecir Concentrado de Sílice (%)" "primary").

Definition subheader_event : Event :=
  Render Main (StSubheader "📈 Resultado de la Predicción").

Definition info_event : Event :=
  Render Main
    (StInfo "Este valor representa el porcentaje del concentrado de sílice estimado.").

Definition successes (t : list Event) : list string :=
  flat_map (fun ev => match ev with Render _ (StSuccess b) => [b] | _ => [] end) t.

Definition errors (t : list Event) : list string :=
  flat_map (fun ev => match ev with Render _ (StError b) => [b] | _ => [] end) t.

Definition warnings (t : list Event) : list string :=
  flat_map (fun ev => match ev with Render _ (StWarning b) => [b] | _ => [] end) t.

(** The row the prediction block builds: the three labels over the three
    numbers. *)
Definition df_input (iron air amina : float) : DataFrame :=
  mkFrame ["% Iron Concentrate"; "Flotation Column 01 Air Flow"; "Amina Flow"]
    [[iron; air; amina]].

(** The stub of the test scenarios: a model that answers 2.5 to every row. *)
Definition stub_model : Model := mkModel (fun _ => Return (NdArray [2.5%float])).

Definition stub_fs : gmap string File := {[ artifact_path := Pickle (Some stub_model) ]}.

(** A model whose inference is interrupted: [KeyboardInterrupt] is not an
    [Exception]. *)
Definition interrupted_model : Model :=
  mkModel (fun _ => Raise (mkExc KeyboardInterrupt "")).

(** A model whose inference rejects the row. *)
Definition rejecting_model : Model :=
  mkModel (fun _ => Raise (mkExc ValueError "feature_names mismatch")).

(** A model that answers with an empty array. *)
Definition silent_model : Model := mkModel (fun _ => Return (NdArray [])).

Definition cache_with (m : Model) : gmap string CachedResult :=
  <[artifact_path := mkCached (Some m) []]> ∅.

(** An artifact that is not a pickle. *)
Definition corrupt_fs : gmap string File :=
  {[ artifact_path := Corrupt (mkExc UnpicklingError "invalid load key, 'x'.") ]}.

(** What a cold load stores and renders for a missing file. *)
Definition not_found_entry (path : string) : CachedResult :=
  mkCached None [(Main, StError (not_found_text path))].

Definition not_found_events (path : string) : list Event :=
  [JoblibLoad path; Render Main (StError (not_found_text path))].

(** The table of section 6 of the specification, row by row: minimum,
    maximum, default and step of iron_concentrate_pct, air_flow and
    amine_flow. *)
Definition spec_controls : list (float * float * float * float) :=
  [ (62.05, 68.01, 65, 0.1);
    (175.84734, 372.44264, 200, 0.1);
    (241.70237, 739.304, 350, 0.1) ]%float.

(** The numbers of one slider, as floats. *)
Definition control_of (a : SliderArgs) : float * float * float * float :=
  (float_of_num (min_value a), float_of_num (max_value a),
   float_of_num (value a), float_of_num (step a)).

(** A second path, for the loads that are not the script's. *)
Definition other_path : string := "ausente.joblib".

Definition buttons (t : list Event) : list string :=
  flat_map (fun ev => match ev with Render _ (StButton b _) => [b] | _ => [] end) t.

(** What [load_model] can have stored under a path: a value with nothing
    rendered, or [None] with the not-found message of that path. *)
Definition entry_okb (path : string) (hit : CachedResult) : bool :=
  match cached_messages hit with
  | [] => true
  | [(Main, StError body)] =>
      match cached_value hit with
      | None => String.eqb body (not_found_text path)
      | Some _ => false
      end
  | _ => false
  end.

Definition cache_ok (c : gmap string CachedResult) : Prop :=
  forall path hit, c !! path = Some hit -> entry_okb path hit = true.

(** * Properties *)

(** ** The format [:.2f] *)

Section Format.

Import Fmt.

Example format_2f_2_5 : format_2f 2.5 = "2.50".
Proof. vm_compute. reflexivity. Qed.

Example format_2f_tie_to_even_down : format_2f 0.125 = "0.12".
Proof. vm_compute. reflexivity. Qed.

Example format_2f_tie_to_even_up : format_2f 0.375 = "0.38".
Proof. vm_compute. reflexivity. Qed.

Example format_2f_binary_value : format_2f 2.675 = "2.67".
Proof. vm_compute. reflexivity. Qed.

Example format_2f_negative_zero : format_2f (-0.001) = "-0.00".
Proof. vm_compute. reflexivity. Qed.

Example format_2f_carry : format_2f 123456789.999 = "123456790.00".
Proof. vm_compute. reflexivity. Qed.

Example format_2f_nan : format_2f nan = "nan".
Proof. vm_compute. reflexivity. Qed.

Example float_of_int_65 : float_of_num (PyInt 65) = 65%float.
Proof. vm_compute. reflexivity. Qed.

Lemma is_digit_digit (d : Z) : (0 <= d <= 9)%Z -> is_digit (digit d) = true.
Proof.
  intros Hd. unfold is_digit, digit.
  rewrite nat_ascii_embedding by lia.
  apply andb_true_intro; split; apply Nat.leb_le; lia.
Qed.

Lemma all_digits_NilEmpty (u : Decimal.uint) :
  all_digits (NilEmpty.string_of_uint u) = true.
Proof. induction u; simpl; auto. Qed.

Lemma all_digits_decimal (n : Z) : all_digits (decimal n) = true.
Proof.
  unfold decimal, NilZero.string_of_uint.
  destruct (N.to_uint (Z.to_N n)) eqn:E; try reflexivity;
    rewrite <- E; apply all_digits_NilEmpty.
Qed.

Lemma decimal_nonempty (n : Z) : decimal n <> "".
Proof.
  unfold decimal, NilZero.string_of_uint.
  destruct (N.to_uint (Z.to_N n)); simpl; discriminate.
Qed.

(** [round_half_even] is within half a unit of the quotient. *)
Lemma round_half_even_nearest (num den : Z) :
  (0 < den)%Z ->
  (2 * Z.abs (num - round_half_even num den * den) <= den)%Z.
Proof.
  intros Hden. unfold round_half_even.
  pose proof (Z.div_mod num den ltac:(lia)) as Hdm.
  pose proof (Z.mod_pos_bound num den Hden) as Hr.
  set (q := (num / den)%Z) in *. set (r := (num mod den)%Z) in *.
  destruct (Z.compare_spec (2 * r) den) as [Heq | Hlt | Hgt];
    [destruct (Z.even q) |..]; nia.
Qed.

Lemma fixed2_shape (neg : bool) (h : Z) :
  exists ip d1 d2,
    fixed2 neg h = sign_text neg +:+ ip +:+ "." +:+ String d1 (String d2 "")
    /\ ip <> "" /\ all_digits ip = true
    /\ is_digit d1 = true /\ is_digit d2 = true.
Proof.
  exists (decimal (h / 100)), (digit (h mod 100 / 10)), (digit (h mod 10)).
  split; [reflexivity |].
  split; [apply decimal_nonempty |].
  split; [apply all_digits_decimal |].
  split; apply is_digit_digit.
  - pose proof (Z.mod_pos_bound h 100 eq_refl) as Hm.
    assert (h mod 100 / 10 < 10)%Z by (apply Z.div_lt_upper_bound; lia).
    assert (0 <= h mod 100 / 10)%Z by (apply Z.div_pos; lia).
    lia.
  - pose proof (Z.mod_pos_bound h 10 eq_refl). lia.
Qed.

(** A finite float prints as sign, integer digits, a point and exactly two
    digits. *)
Lemma format_2f_shape (x : float) :
  isfinite x = true ->
  exists neg ip d1 d2,
    format_2f x = sign_text neg +:+ ip +:+ "." +:+ String d1 (String d2 "")
    /\ ip <> "" /\ all_digits ip = true
    /\ is_digit d1 = true /\ is_digit d2 = true.
Proof.
  unfold isfinite, format_2f.
  destruct (Prim2SF x) as [s | s | | s m e]; try discriminate; intros _;
    exists s; apply fixed2_shape.
Qed.

End Format.

(** ** The monad and the cache *)

Section Cache.

Implicit Types (fs : gmap string File) (c : gmap string CachedResult).
Implicit Types (path : string) (t : list Event).

Lemma predict_calls_app t1 t2 :
  predict_calls (t1 ++ t2) = predict_calls t1 ++ predict_calls t2.
Proof. unfold predict_calls. apply flat_map_app. Qed.

Lemma fs_reads_app t1 t2 : fs_reads (t1 ++ t2) = fs_reads t1 ++ fs_reads t2.
Proof. unfold fs_reads. apply flat_map_app. Qed.

Lemma rendered_app t1 t2 : rendered (t1 ++ t2) = rendered t1 ++ rendered t2.
Proof. unfold rendered. apply flat_map_app. Qed.

Lemma predict_calls_replay msgs : predict_calls (replay msgs) = [].
Proof. induction msgs as [| [k e] msgs IH]; simpl; auto. Qed.

Lemma fs_reads_replay msgs : fs_reads (replay msgs) = [].
Proof. induction msgs as [| [k e] msgs IH]; simpl; auto. Qed.

(** The body of [load_model], case by case on the file. *)
Lemma load_model_undecorated_missing path fs c :
  fs !! path = None ->
  load_model_undecorated path fs c =
    (Return None, c, [JoblibLoad path; Render Main (StError (not_found_text path))]).
Proof.
  intros Hfs. unfold load_model_undecorated, try_except, bind, joblib.load.
  rewrite Hfs. reflexivity.
Qed.

Lemma load_model_undecorated_pickle path fs c obj :
  fs !! path = Some (Pickle obj) ->
  load_model_undecorated path fs c = (Return obj, c, [JoblibLoad path]).
Proof.
  intros Hfs. unfold load_model_undecorated, try_except, bind, joblib.load.
  rewrite Hfs. reflexivity.
Qed.

Lemma load_model_undecorated_corrupt path fs c e :
  fs !! path = Some (Corrupt e) ->
  load_model_undecorated path fs c =
    if isinstance_FileNotFoundError (exc_class e)
    then (Return None, c,
          [JoblibLoad path; Render Main (StError (not_found_text path))])
    else (Raise e, c, [JoblibLoad path]).
Proof.
  intros Hfs. unfold load_model_undecorated, try_except, bind, joblib.load.
  rewrite Hfs. simpl. destruct (isinstance_FileNotFoundError (exc_class e)); reflexivity.
Qed.

(** The body leaves the cache alone and reads the filesystem once. *)
Lemma load_model_undecorated_run path fs c :
  exists r t,
    load_model_undecorated path fs c = (r, c, t)
    /\ fs_reads t = [path] /\ predict_calls t = [].
Proof.
  destruct (fs !! path) as [[obj | e] |] eqn:Hfs.
  - rewrite (load_model_undecorated_pickle _ _ _ _ Hfs). eauto.
  - rewrite (load_model_undecorated_corrupt _ _ _ _ Hfs).
    destruct (isinstance_FileNotFoundError (exc_class e)); eauto.
  - rewrite (load_model_undecorated_missing _ _ _ Hfs). eauto.
Qed.

(** A hit: the stored value, no filesystem access, the cache unchanged. *)
Lemma load_model_hit path fs c hit :
  c !! path = Some hit ->
  load_model path fs c = (Return (cached_value hit), c, replay (cached_messages hit)).
Proof. intros Hc. unfold load_model, cache_resource. rewrite Hc. reflexivity. Qed.

(** A miss runs the body; a returned value is stored, an exception is not. *)
Lemma load_model_miss path fs c :
  c !! path = None ->
  load_model path fs c =
    match load_model_undecorated path fs c with
    | (Return v, c1, t1) => (Return v, <[path := mkCached v (recorded t1)]> c1, t1)
    | (Raise e, c1, t1) => (Raise e, c1, t1)
    end.
Proof. intros Hc. unfold load_model, cache_resource. rewrite Hc. reflexivity. Qed.

(** Whatever [load_model] returns is in the cache afterwards. *)
Lemma load_model_return_cached path fs c v c1 t1 :
  load_model path fs c = (Return v, c1, t1) ->
  exists msgs, c1 !! path = Some (mkCached v msgs).
Proof.
  destruct (c !! path) as [hit |] eqn:Hc.
  - rewrite (load_model_hit _ _ _ _ Hc). intros [= <- <- _].
    destruct hit as [v msgs]. eauto.
  - rewrite (load_model_miss _ _ _ Hc).
    destruct (load_model_undecorated_run path fs c) as (r & t & -> & _).
    destruct r as [v' | e]; intros [= <- <- _].
    eexists. apply lookup_insert_eq.
Qed.

(** A raising [load_model] stores nothing and has read the filesystem. *)
Lemma load_model_raise_uncached path fs c e c1 t1 :
  load_model path fs c = (Raise e, c1, t1) ->
  c1 = c /\ c !! path = None /\ fs_reads t1 = [path].
Proof.
  destruct (c !! path) as [hit |] eqn:Hc.
  - rewrite (load_model_hit _ _ _ _ Hc). discriminate.
  - rewrite (load_model_miss _ _ _ Hc).
    destruct (load_model_undecorated_run path fs c) as (r & t & -> & Hr & _).
    destruct r as [v' | e']; intros [= <- <- <-]. auto.
Qed.

(** No call of [load_model] drops or changes an entry of the cache. *)
Lemma load_model_keeps path' fs c r c1 t1 path hit :
  load_model path' fs c = (r, c1, t1) ->
  c !! path = Some hit -> c1 !! path = Some hit.
Proof.
  intros Hrun Hc.
  destruct (c !! path') as [hit' |] eqn:Hc'.
  - rewrite (load_model_hit _ _ _ _ Hc') in Hrun.
    injection Hrun as <- <- <-. exact Hc.
  - rewrite (load_model_miss _ _ _ Hc') in Hrun.
    destruct (load_model_undecorated_run path' fs c) as (r' & t & Hbody & _).
    rewrite Hbody in Hrun.
    destruct r' as [v' | e']; injection Hrun as <- <- <-; [| exact Hc].
    rewrite lookup_insert_ne; [exact Hc | congruence].
Qed.

Lemma loads_keep calls : forall c path hit,
  c !! path = Some hit -> snd (loads calls c) !! path = Some hit.
Proof.
  induction calls as [| [fs path'] calls IH]; intros c path hit Hc; simpl; [exact Hc |].
  destruct (load_model path' fs c) as [[r c1] t1] eqn:Hrun.
  specialize (IH c1 path hit (load_model_keeps _ _ _ _ _ _ _ _ Hrun Hc)).
  destruct (loads calls c1) as [outs c2]. exact IH.
Qed.

(** [load_model] never calls the model. *)
Lemma load_model_no_predict path fs c r c1 t1 :
  load_model path fs c = (r, c1, t1) -> predict_calls t1 = [].
Proof.
  destruct (c !! path) as [hit |] eqn:Hc.
  - rewrite (load_model_hit _ _ _ _ Hc). intros [= _ _ <-]. apply predict_calls_replay.
  - rewrite (load_model_miss _ _ _ Hc).
    destruct (load_model_undecorated_run path fs c) as (r' & t & -> & _ & Hp).
    destruct r' as [v' | e']; intros [= _ _ <-]; exact Hp.
Qed.

End Cache.

(** ** The prediction block and the whole script *)

Section Script.

Implicit Types (fs : gmap string File) (c : gmap string CachedResult).
Implicit Types (w : Widgets) (m : Model) (t : list Event).

(** Building the table cannot raise: three labels, one row of three. *)
Lemma DataFrame_built (iron air amina : float) :
  pd.DataFrame [[iron; air; amina]] input_columns = Return (df_input iron air amina).
Proof. reflexivity. Qed.

(** The first slider of the sidebar is called with an [int] default between
    [float] bounds: the call raises after the header and the text of the
    sidebar, before any control is drawn. *)
Lemma sidebar_run w fs c :
  sidebar w fs c = (Raise (slider_type_error iron_slider), c, sidebar_events).
Proof. reflexivity. Qed.

Lemma prediction_logic_none w iron air amina fs c :
  prediction_logic None w iron air amina fs c =
    (Return tt, c, [Render Main (StWarning warning_text)]).
Proof. reflexivity. Qed.

Lemma prediction_logic_idle m w iron air amina fs c :
  clicked w = false ->
  prediction_logic (Some m) w iron air amina fs c = (Return tt, c, [button_event]).
Proof.
  intros Hw. unfold prediction_logic, bind, st_button, emit, ret; simpl.
  rewrite Hw. reflexivity.
Qed.

(** A click: the model is called once on the row; what follows depends on
    what the call and the indexing do. *)
Lemma prediction_logic_click m w iron air amina fs c :
  clicked w = true ->
  prediction_logic (Some m) w iron air amina fs c =
    match predict m (df_input iron air amina) with
    | Return out =>
        match getitem0 out with
        | Return first =>
            (Return tt, c,
             [button_event; Predict (df_input iron air amina); subheader_event;
              Render Main (StSuccess (success_text first)); info_event])
        | Raise e =>
            if isinstance_Exception (exc_class e)
            then (Return tt, c,
                  [button_event; Predict (df_input iron air amina); subheader_event;
                   Render Main (StError (error_prefix +:+ exc_str e))])
            else (Raise e, c,
                  [button_event; Predict (df_input iron air amina); subheader_event])
        end
    | Raise e =>
        if isinstance_Exception (exc_class e)
        then (Return tt, c,
              [button_event; Predict (df_input iron air amina);
               Render Main (StError (error_prefix +:+ exc_str e))])
        else (Raise e, c, [button_event; Predict (df_input iron air amina)])
    end.
Proof.
  intros Hw.
  unfold prediction_logic. rewrite DataFrame_built.
  unfold bind, st_button, emit, ret; simpl. rewrite Hw.
  unfold try_except, model_predict, bind, lift, emit, st_subheader, st_success,
    st_info, st_error, emit; simpl.
  destruct (predict m (df_input iron air amina)) as [out | e]; simpl.
  - destruct (getitem0 out) as [first | e]; simpl; [reflexivity |].
    destruct (isinstance_Exception (exc_class e)); reflexivity.
  - destruct (isinstance_Exception (exc_class e)); reflexivity.
Qed.

(** The block never touches the cache. *)
Lemma prediction_logic_cache model w iron air amina fs c :
  snd (fst (prediction_logic model w iron air amina fs c)) = c.
Proof.
  destruct model as [m |]; [| reflexivity].
  destruct (clicked w) eqn:Hw.
  - rewrite (prediction_logic_click _ _ _ _ _ _ _ Hw).
    destruct (predict m _) as [out | e];
      [destruct (getitem0 out) as [first | e] |];
      try destruct (isinstance_Exception (exc_class e)); reflexivity.
  - rewrite (prediction_logic_idle _ _ _ _ _ _ _ Hw). reflexivity.
Qed.

(** The script is the page configuration and the load; when the load
    returns, the sidebar follows and its first slider ends the run. *)
Lemma script_run w fs c :
  script w fs c =
    match load_model artifact_path fs c with
    | (Raise e, c1, t1) => (Raise e, c1, page_config_events ++ t1)
    | (Return _, c1, t1) =>
        (Raise (slider_type_error iron_slider), c1,
         page_config_events ++ t1 ++ sidebar_events)
    end.
Proof.
  unfold script.
  unfold bind at 1.
  change (st_set_page_config _ _ _ fs c) with (Return tt, c, page_config_events).
  cbv iota beta. unfold bind at 1.
  destruct (load_model artifact_path fs c) as [[[model | e] c1] t1]; [| reflexivity].
  unfold bind at 1. rewrite sidebar_run. reflexivity.
Qed.

End Script.

(** ** Rounding to hundredths *)

Section Hundredths.

(** A tie of [round_half_even] goes to the even neighbour. *)
Lemma round_half_even_tie (num den : Z) :
  (0 < den)%Z ->
  (2 * Z.abs (num - Fmt.round_half_even num den * den) = den)%Z ->
  Z.even (Fmt.round_half_even num den) = true.
Proof.
  intros Hden. unfold Fmt.round_half_even.
  pose proof (Z.div_mod num den ltac:(lia)) as Hdm.
  pose proof (Z.mod_pos_bound num den Hden) as Hr.
  set (q := (num / den)%Z) in *. set (r := (num mod den)%Z) in *.
  destruct (Z.compare_spec (2 * r) den) as [Heq | Hlt | Hgt].
  - destruct (Z.even q) eqn:Hq; [intros _; exact Hq |].
    intros _. rewrite Z.add_1_r, Z.even_succ, <- Z.negb_even, Hq. reflexivity.
  - intros Habs. exfalso. nia.
  - intros Habs. exfalso. nia.
Qed.

Lemma round_half_even_nonneg (num den : Z) :
  (0 <= num)%Z -> (0 < den)%Z -> (0 <= Fmt.round_half_even num den)%Z.
Proof.
  intros Hnum Hden. unfold Fmt.round_half_even.
  pose proof (Z.div_pos num den Hnum Hden) as Hq.
  destruct (2 * (num mod den) ?= den)%Z; [destruct (Z.even (num / den)) |..]; lia.
Qed.

(** The count of hundredths of [m * 2^e]: not negative, nearest to the
    exact value, even on a tie. *)
Lemma hundredths_nearest (m : positive) (e : Z) :
  (0 <= Fmt.hundredths m e)%Z
  /\ (2 * Z.abs (100 * (Z.pos m * 2 ^ Z.max 0 e)
                 - Fmt.hundredths m e * 2 ^ Z.max 0 (- e))
      <= 2 ^ Z.max 0 (- e))%Z
  /\ ((2 * Z.abs (100 * (Z.pos m * 2 ^ Z.max 0 e)
                  - Fmt.hundredths m e * 2 ^ Z.max 0 (- e))
       = 2 ^ Z.max 0 (- e))%Z ->
      Z.even (Fmt.hundredths m e) = true).
Proof.
  unfold Fmt.hundredths. destruct (Z.leb_spec 0 e) as [Hpos | Hneg].
  - rewrite (Z.max_r 0 e) by lia. rewrite (Z.max_l 0 (- e)) by lia.
    rewrite Z.pow_0_r.
    assert (0 < 2 ^ e)%Z as Hpow by (apply Z.pow_pos_nonneg; lia).
    replace (100 * (Z.pos m * 2 ^ e) - Z.pos m * 2 ^ e * 100 * 1)%Z with 0%Z by ring.
    split; [nia |]. split; [simpl; lia |]. simpl. intros Habs. discriminate.
  - rewrite (Z.max_l 0 e) by lia. rewrite (Z.max_r 0 (- e)) by lia.
    rewrite Z.pow_0_r.
    assert (0 < 2 ^ (- e))%Z as Hpow by (apply Z.pow_pos_nonneg; lia).
    replace (100 * (Z.pos m * 1))%Z with (Z.pos m * 100)%Z by ring.
    split; [apply round_half_even_nonneg; lia |].
    split; [apply round_half_even_nearest; exact Hpow |].
    apply round_half_even_tie; exact Hpow.
Qed.

(** The three groups of digits of a count of hundredths. *)
Lemma digits_of_hundredths (h : Z) :
  Fmt.all_digits (Fmt.decimal (h / 100)) = true
  /\ Fmt.is_digit (Fmt.digit (h mod 100 / 10)) = true
  /\ Fmt.is_digit (Fmt.digit (h mod 10)) = true.
Proof.
  split; [apply all_digits_decimal |].
  split; apply is_digit_digit.
  - pose proof (Z.mod_pos_bound h 100 eq_refl) as Hm.
    assert (h mod 100 / 10 < 10)%Z by (apply Z.div_lt_upper_bound; lia).
    assert (0 <= h mod 100 / 10)%Z by (apply Z.div_pos; lia).
    lia.
  - pose proof (Z.mod_pos_bound h 10 eq_refl). lia.
Qed.

End Hundredths.

(** ** The prediction request *)

Section Prediction.

Implicit Types (fs : gmap string File) (c : gmap string CachedResult).
Implicit Types (m : Model) (w : Widgets) (t : list Event).

(** C1: on a click, the prediction block calls the inference entry point
    exactly once, on the single row [iron, air, amine] under the labels
    "% Iron Concentrate", "Flotation Column 01 Air Flow", "Amina Flow", in
    that order; and what the block then does is what the model answers to
    that very row: it ends as the call ends, and the success box shows the
    first element of the answer to it. *)
Theorem feature_row_order m w (iron air amina : float) fs c :
  clicked w = true ->
  predict_calls (snd (prediction_logic (Some m) w iron air amina fs c)) =
    [mkFrame ["% Iron Concentrate"; "Flotation Column 01 Air Flow"; "Amina Flow"]
       [[iron; air; amina]]]
  /\ fst (fst (prediction_logic (Some m) w iron air amina fs c)) =
       match
         predict m
           (mkFrame ["% Iron Concentrate"; "Flotation Column 01 Air Flow"; "Amina Flow"]
              [[iron; air; amina]])
       with
       | Return out => Return tt
       | Raise e => if isinstance_Exception (exc_class e) then Return tt else Raise e
       end
  /\ successes (snd (prediction_logic (Some m) w iron air amina fs c)) =
       match
         predict m
           (mkFrame ["% Iron Concentrate"; "Flotation Column 01 Air Flow"; "Amina Flow"]
              [[iron; air; amina]])
       with
       | Return out =>
           match getitem0 out with
           | Return first => [success_text first]
           | Raise _ => []
           end
       | Raise _ => []
       end.
Proof.
  intros Hclick. rewrite (prediction_logic_click _ _ _ _ _ _ _ Hclick).
  fold (df_input iron air amina).
  destruct (predict m (df_input iron air amina)) as [out | e].
  - destruct (getitem0 out) as [first | e] eqn:Hget; [repeat split; reflexivity |].
    assert (isinstance_Exception (exc_class e) = true) as Hcls.
    { destruct out as [[| x xs] | [| x xs]]; simpl in Hget;
        try discriminate; injection Hget as <-; reflexivity. }
    rewrite Hcls. repeat split; reflexivity.
  - destruct (isinstance_Exception (exc_class e)); repeat split; reflexivity.
Qed.

(** The scenario of C1: iron = 65, air = 200, amine = 350 on the stub. *)
Lemma feature_row_order_65_200_350 :
  clicked (mkWidgets 65 200 350 true) = true
  /\ predict_calls
       (snd (prediction_logic (Some stub_model) (mkWidgets 65 200 350 true)
               65 200 350 ∅ ∅)) =
       [mkFrame ["% Iron Concentrate"; "Flotation Column 01 Air Flow"; "Amina Flow"]
          [[65%float; 200%float; 350%float]]]
  /\ successes
       (snd (prediction_logic (Some stub_model) (mkWidgets 65 200 350 true)
               65 200 350 ∅ ∅)) =
       ["**Concentrado Predicho:** `2.50%`"].
Proof.
  split; [reflexivity |].
  destruct (feature_row_order stub_model (mkWidgets 65 200 350 true) 65 200 350 ∅ ∅
              eq_refl) as (Hcalls & _ & Hbox).
  split; [exact Hcalls |]. rewrite Hbox. vm_compute. reflexivity.
Defined.

(** C6: the float the model returns reaches the success box as it is, and
    only there it is formatted: the box shows, between the fixed prefix and
    the percent sign, the sign of the value and its count [h] of hundredths
    printed with exactly two decimals, where [h] is the integer nearest to a
    hundred times the exact binary value, the even one on a tie. *)
Theorem prediction_two_decimals m w (iron air amina : float) out first fs c :
  clicked w = true ->
  predict m (df_input iron air amina) = Return out ->
  getitem0 out = Return first ->
  Fmt.isfinite first = true ->
  prediction_logic (Some m) w iron air amina fs c =
    (Return tt, c,
     [button_event; Predict (df_input iron air amina); subheader_event;
      Render Main
        (StSuccess ("**Concentrado Predicho:** `" +:+ Fmt.format_2f first +:+ "%`"));
      info_event])
  /\ exists neg h,
       Fmt.format_2f first =
         Fmt.sign_text neg +:+ Fmt.decimal (h / 100) +:+ "."
           +:+ String (Fmt.digit (h mod 100 / 10)) (String (Fmt.digit (h mod 10)) "")
       /\ (0 <= h)%Z
       /\ Fmt.all_digits (Fmt.decimal (h / 100)) = true
       /\ Fmt.is_digit (Fmt.digit (h mod 100 / 10)) = true
       /\ Fmt.is_digit (Fmt.digit (h mod 10)) = true
       /\ match Prim2SF first with
          | S754_zero s => neg = s /\ h = 0%Z
          | S754_finite s mant e =>
              neg = s
              /\ (2 * Z.abs (100 * (Z.pos mant * 2 ^ Z.max 0 e) - h * 2 ^ Z.max 0 (- e))
                  <= 2 ^ Z.max 0 (- e))%Z
              /\ ((2 * Z.abs (100 * (Z.pos mant * 2 ^ Z.max 0 e)
                              - h * 2 ^ Z.max 0 (- e))
                   = 2 ^ Z.max 0 (- e))%Z ->
                  Z.even h = true)
          | _ => False
          end.
Proof.
  intros Hclick Hout Hfirst Hfin. split.
  { rewrite (prediction_logic_click _ _ _ _ _ _ _ Hclick), Hout, Hfirst. reflexivity. }
  unfold Fmt.isfinite in Hfin. unfold Fmt.format_2f.
  destruct (Prim2SF first) as [s | s | | s mant e]; try discriminate.
  - exists s, 0%Z. split; [reflexivity |]. split; [lia |].
    destruct (digits_of_hundredths 0) as (Hip & Hd1 & Hd2). auto.
  - exists s, (Fmt.hundredths mant e). split; [reflexivity |].
    destruct (hundredths_nearest mant e) as (Hnn & Hnear & Htie).
    destruct (digits_of_hundredths (Fmt.hundredths mant e)) as (Hip & Hd1 & Hd2).
    auto 10.
Qed.

(** The scenario of C6: the stub answers 2.5 and the box shows 2.50%. *)
Lemma stub_displays_2_50 :
  (clicked (mkWidgets 65 200 350 true) = true
   /\ predict stub_model (df_input 65 200 350) = Return (NdArray [2.5%float])
   /\ getitem0 (NdArray [2.5%float]) = Return 2.5%float
   /\ Fmt.isfinite 2.5 = true)
  /\ successes
       (snd (prediction_logic (Some stub_model) (mkWidgets 65 200 350 true)
               65 200 350 ∅ ∅)) =
       ["**Concentrado Predicho:** `2.50%`"]
  /\ Fmt.format_2f 2.5 +:+ "%" = "2.50%".
Proof.
  split; [repeat split; reflexivity |].
  destruct (prediction_two_decimals stub_model (mkWidgets 65 200 350 true)
              65 200 350 (NdArray [2.5%float]) 2.5%float ∅ ∅
              eq_refl eq_refl eq_refl eq_refl) as [Hrun _].
  rewrite Hrun. split; vm_compute; reflexivity.
Defined.

(** C3, as amended: in the prediction block, on a click, building the row
    cannot raise, and an exception that derives from [Exception] and is
    raised by the inference call is caught: the block ends normally, it has
    drawn the button and, after the call, the error box with the text of
    the cause, and the cache is as it was. *)
Theorem predict_exception_caught m w (iron air amina : float) e fs c :
  clicked w = true ->
  predict m (df_input iron air amina) = Raise e ->
  isinstance_Exception (exc_class e) = true ->
  pd.DataFrame [[iron; air; amina]] input_columns = Return (df_input iron air amina)
  /\ prediction_logic (Some m) w iron air amina fs c =
       (Return tt, c,
        [button_event; Predict (df_input iron air amina);
         Render Main
           (StError ("Ocurrió un error durante la predicción: " +:+ exc_str e))]).
Proof.
  intros Hclick Hraise Hexc. split; [reflexivity |].
  rewrite (prediction_logic_click _ _ _ _ _ _ _ Hclick), Hraise, Hexc. reflexivity.
Qed.

(** A model that rejects the row: the block shows the cause. *)
Lemma rejected_row_is_reported :
  (clicked (mkWidgets 65 200 350 true) = true
   /\ predict rejecting_model (df_input 65 200 350) =
        Raise (mkExc ValueError "feature_names mismatch")
   /\ isinstance_Exception ValueError = true)
  /\ fst (fst (prediction_logic (Some rejecting_model) (mkWidgets 65 200 350 true)
                 65 200 350 ∅ ∅)) = Return tt
  /\ errors (snd (prediction_logic (Some rejecting_model) (mkWidgets 65 200 350 true)
                    65 200 350 ∅ ∅)) =
       ["Ocurrió un error durante la predicción: feature_names mismatch"].
Proof.
  split; [repeat split; reflexivity |].
  destruct (predict_exception_caught rejecting_model (mkWidgets 65 200 350 true)
              65 200 350 (mkExc ValueError "feature_names mismatch") ∅ ∅
              eq_refl eq_refl eq_refl) as (_ & Hrun).
  rewrite Hrun. split; vm_compute; reflexivity.
Defined.

(** C3 as stated fails: an exception that does not derive from [Exception]
    passes the handler; the block ends with it and draws no error box. *)
Lemma interrupt_escapes_handler :
  predict interrupted_model (df_input 65 200 350) = Raise (mkExc KeyboardInterrupt "")
  /\ prediction_logic (Some interrupted_model) (mkWidgets 65 200 350 true)
       65 200 350 ∅ ∅ =
       (Raise (mkExc KeyboardInterrupt ""), ∅,
        [button_event; Predict (df_input 65 200 350)])
  /\ errors [button_event; Predict (df_input 65 200 350)] = [].
Proof. repeat split; vm_compute; reflexivity. Qed.

(** C10: the first element is taken inside the [try]: when the model
    returns an empty sequence, the [IndexError] of the indexing is caught
    and shown in the error box, below the result heading; the block ends
    normally and there is no success box. *)
Theorem empty_output_caught m w (iron air amina : float) out fs c :
  clicked w = true ->
  predict m (df_input iron air amina) = Return out ->
  seq_items out = [] ->
  exists e,
    getitem0 out = Raise e /\ exc_class e = IndexError
    /\ prediction_logic (Some m) w iron air amina fs c =
         (Return tt, c,
          [button_event; Predict (df_input iron air amina); subheader_event;
           Render Main
             (StError ("Ocurrió un error durante la predicción: " +:+ exc_str e))]).
Proof.
  intros Hclick Hout Hempty.
  assert (exists e, getitem0 out = Raise e /\ exc_class e = IndexError) as (e & He & Hcls).
  { destruct out as [xs | xs]; simpl in Hempty; subst xs; eexists; split; reflexivity. }
  exists e. split; [exact He |]. split; [exact Hcls |].
  rewrite (prediction_logic_click _ _ _ _ _ _ _ Hclick), Hout, He, Hcls. reflexivity.
Qed.

(** A model that answers with an empty array: NumPy's message in the error
    box and no success box. *)
Lemma empty_array_is_reported :
  (clicked (mkWidgets 65 200 350 true) = true
   /\ predict silent_model (df_input 65 200 350) = Return (NdArray [])
   /\ seq_items (NdArray []) = [])
  /\ fst (fst (prediction_logic (Some silent_model) (mkWidgets 65 200 350 true)
                 65 200 350 ∅ ∅)) = Return tt
  /\ errors (snd (prediction_logic (Some silent_model) (mkWidgets 65 200 350 true)
                    65 200 350 ∅ ∅)) =
       ["Ocurrió un error durante la predicción: index 0 is out of bounds for axis 0 with size 0"]
  /\ successes (snd (prediction_logic (Some silent_model) (mkWidgets 65 200 350 true)
                       65 200 350 ∅ ∅)) = [].
Proof.
  split; [repeat split; reflexivity |].
  destruct (empty_output_caught silent_model (mkWidgets 65 200 350 true)
              65 200 350 (NdArray []) ∅ ∅ eq_refl eq_refl eq_refl)
    as (e & He & _ & Hrun).
  injection He as <-.
  rewrite Hrun. repeat split; vm_compute; reflexivity.
Defined.

End Prediction.

(** ** The loader *)

Section Loader.

Implicit Types (fs : gmap string File) (c : gmap string CachedResult).
Implicit Types (path : string) (w : Widgets).

Lemma script_load_raises w fs c e c1 t1 :
  load_model artifact_path fs c = (Raise e, c1, t1) ->
  script w fs c = (Raise e, c1, page_config_events ++ t1).
Proof. intros Hload. rewrite script_run, Hload. reflexivity. Qed.

(** The first load of a path, by what the filesystem holds there. *)
Lemma load_model_cold path fs c :
  c !! path = None ->
  load_model path fs c =
    match fs !! path with
    | None => (Return None, <[path := not_found_entry path]> c, not_found_events path)
    | Some (Pickle obj) => (Return obj, <[path := mkCached obj []]> c, [JoblibLoad path])
    | Some (Corrupt e) =>
        if isinstance_FileNotFoundError (exc_class e)
        then (Return None, <[path := not_found_entry path]> c, not_found_events path)
        else (Raise e, c, [JoblibLoad path])
    end.
Proof.
  intros Hc. rewrite (load_model_miss _ _ _ Hc).
  destruct (fs !! path) as [[obj | e] |] eqn:Hfs.
  - rewrite (load_model_undecorated_pickle _ _ _ _ Hfs). reflexivity.
  - rewrite (load_model_undecorated_corrupt _ _ _ _ Hfs).
    destruct (isinstance_FileNotFoundError (exc_class e)); reflexivity.
  - rewrite (load_model_undecorated_missing _ _ _ Hfs). reflexivity.
Qed.

(** C2, as amended: on the first load of a path, a missing file makes
    [load_model] render the not-found message and return [None], and no
    exception leaves it; an exception of the deserialisation that is not a
    [FileNotFoundError] is not caught: it leaves [load_model], nothing is
    stored, and a run of the script ends with it right after the page
    configuration. *)
Theorem load_failure_paths path fs (w : Widgets) c :
  c !! path = None ->
  load_model path fs c =
    match fs !! path with
    | None => (Return None, <[path := not_found_entry path]> c, not_found_events path)
    | Some (Pickle obj) => (Return obj, <[path := mkCached obj []]> c, [JoblibLoad path])
    | Some (Corrupt e) =>
        if isinstance_FileNotFoundError (exc_class e)
        then (Return None, <[path := not_found_entry path]> c, not_found_events path)
        else (Raise e, c, [JoblibLoad path])
    end
  /\ (forall e,
        path = artifact_path ->
        fs !! path = Some (Corrupt e) ->
        isinstance_FileNotFoundError (exc_class e) = false ->
        script w fs c = (Raise e, c, page_config_events ++ [JoblibLoad artifact_path])).
Proof.
  intros Hc. split; [apply load_model_cold; exact Hc |].
  intros e -> Hfs Hcls. apply script_load_raises.
  rewrite (load_model_cold _ _ _ Hc), Hfs, Hcls. reflexivity.
Qed.

(** The two failures on a fresh process: no artifact, and an artifact that
    is not a pickle. *)
Lemma load_failure_paths_fresh :
  ((∅ : gmap string CachedResult) !! artifact_path = None)
  /\ load_model artifact_path ∅ ∅ =
       (Return None, <[artifact_path := not_found_entry artifact_path]> ∅,
        not_found_events artifact_path)
  /\ script (default_widgets true) corrupt_fs ∅ =
       (Raise (mkExc UnpicklingError "invalid load key, 'x'."), ∅,
        page_config_events ++ [JoblibLoad artifact_path]).
Proof.
  assert ((∅ : gmap string CachedResult) !! artifact_path = None) as Hc by reflexivity.
  split; [exact Hc |].
  pose proof (load_failure_paths artifact_path ∅ (default_widgets true) ∅ Hc)
    as [Hload _].
  pose proof (load_failure_paths artifact_path corrupt_fs (default_widgets true) ∅ Hc)
    as [_ Hbad].
  split; [exact Hload |].
  exact (Hbad (mkExc UnpicklingError "invalid load key, 'x'.") eq_refl eq_refl eq_refl).
Defined.

(** C2 as stated fails: an artifact whose deserialisation raises something
    else than [FileNotFoundError] makes [load_model] raise; no value is
    returned, no message of the script is rendered, the run is over. *)
Lemma corrupt_artifact_raises :
  load_model artifact_path corrupt_fs ∅ =
    (Raise (mkExc UnpicklingError "invalid load key, 'x'."), ∅,
     [JoblibLoad artifact_path])
  /\ script (default_widgets true) corrupt_fs ∅ =
       (Raise (mkExc UnpicklingError "invalid load key, 'x'."), ∅,
        page_config_events ++ [JoblibLoad artifact_path])
  /\ rendered (page_config_events ++ [JoblibLoad artifact_path]) =
       rendered page_config_events.
Proof. repeat split; vm_compute; reflexivity. Qed.

(** C4, as amended: without a model the prediction block is the warning
    alone, and it calls no model, clicked or not; and a load that fails by
    raising is followed by no warning and no call of a model: the run ends
    with the exception of the load. *)
Theorem no_model_no_prediction w (iron air amina : float) fs c :
  prediction_logic None w iron air amina fs c =
    (Return tt, c,
     [Render Main
        (StWarning "El modelo no pudo ser cargado. Por favor, verifica la ruta del archivo del modelo.")])
  /\ predict_calls (snd (prediction_logic None w iron air amina fs c)) = []
  /\ (forall e c1 t1,
        load_model artifact_path fs c = (Raise e, c1, t1) ->
        script w fs c = (Raise e, c, page_config_events ++ [JoblibLoad artifact_path])
        /\ warnings (snd (script w fs c)) = []
        /\ predict_calls (snd (script w fs c)) = []).
Proof.
  split; [reflexivity |]. split; [reflexivity |].
  intros e c1 t1 Hload.
  destruct (load_model_raise_uncached _ _ _ _ _ _ Hload) as (-> & Hc & _).
  assert (t1 = [JoblibLoad artifact_path]) as ->.
  { rewrite (load_model_miss _ _ _ Hc) in Hload.
    destruct (load_model_undecorated_run artifact_path fs c) as (r & t & Hbody & _).
    unfold load_model_undecorated, try_except, bind, joblib.load in Hbody, Hload.
    destruct (fs !! artifact_path) as [[obj | e0] |]; simpl in Hload;
      try discriminate.
    destruct (isinstance_FileNotFoundError (exc_class e0)); simpl in Hload;
      [discriminate | injection Hload as _ <-; reflexivity]. }
  rewrite (script_load_raises _ _ _ _ _ _ Hload). repeat split; reflexivity.
Qed.

(** A click with no model, and a run on the artifact that is not a pickle. *)
Lemma no_model_no_prediction_scenarios :
  load_model artifact_path corrupt_fs ∅ =
    (Raise (mkExc UnpicklingError "invalid load key, 'x'."), ∅,
     [JoblibLoad artifact_path])
  /\ warnings (snd (prediction_logic None (default_widgets true) 65 200 350 ∅ ∅)) =
       ["El modelo no pudo ser cargado. Por favor, verifica la ruta del archivo del modelo."]
  /\ predict_calls (snd (prediction_logic None (default_widgets true) 65 200 350 ∅ ∅)) = []
  /\ warnings (snd (script (default_widgets true) corrupt_fs ∅)) = []
  /\ predict_calls (snd (script (default_widgets true) corrupt_fs ∅)) = [].
Proof.
  assert (load_model artifact_path corrupt_fs ∅ =
            (Raise (mkExc UnpicklingError "invalid load key, 'x'."), ∅,
             [JoblibLoad artifact_path])) as Hload by reflexivity.
  split; [exact Hload |].
  destruct (no_model_no_prediction (default_widgets true) 65 200 350 ∅ ∅)
    as (Hblock & Hquiet & _).
  destruct (no_model_no_prediction (default_widgets true) 65 200 350 corrupt_fs ∅)
    as (_ & _ & Hraise).
  destruct (Hraise _ _ _ Hload) as (_ & Hw & Hp).
  split; [rewrite Hblock; reflexivity |].
  split; [exact Hquiet |]. split; [exact Hw | exact Hp].
Defined.

(** C4 as stated fails: the load of an artifact that is not a pickle has
    failed, yet no warning is shown: the run ends with the exception. *)
Lemma failed_load_without_warning :
  fst (fst (load_model artifact_path corrupt_fs ∅)) =
    Raise (mkExc UnpicklingError "invalid load key, 'x'.")
  /\ fst (fst (script (default_widgets true) corrupt_fs ∅)) =
       Raise (mkExc UnpicklingError "invalid load key, 'x'.")
  /\ warnings (snd (script (default_widgets true) corrupt_fs ∅)) = [].
Proof. repeat split; vm_compute; reflexivity. Qed.

(** Once a path has an entry, every later call returns its value from the
    cache, whatever was loaded in between and whatever the filesystem has
    become. *)
Lemma cached_forever path c1 v msgs calls fs' :
  c1 !! path = Some (mkCached v msgs) ->
  load_model path fs' (snd (loads calls c1)) =
    (Return v, snd (loads calls c1), replay msgs).
Proof.
  intros Hc1.
  rewrite (load_model_hit _ _ _ _ (loads_keep calls _ _ _ Hc1)). reflexivity.
Qed.

(** C5, as amended: a load that returns (a model, or [None]) has read the
    filesystem at most once, and its result is cached: every later call
    with the same path returns the same value without reading the
    filesystem and without changing the cache.  A load that raises stores
    nothing: it has read the filesystem, and the same call reads it again. *)
Theorem load_cached_once path fs c r c1 t1 :
  load_model path fs c = (r, c1, t1) ->
  match r with
  | Return v =>
      fs_reads t1 = match c !! path with None => [path] | Some _ => [] end
      /\ exists msgs,
           fs_reads (replay msgs) = []
           /\ forall calls fs',
                load_model path fs' (snd (loads calls c1)) =
                  (Return v, snd (loads calls c1), replay msgs)
  | Raise e =>
      c1 = c /\ fs_reads t1 = [path]
      /\ load_model path fs c1 = (Raise e, c1, t1)
  end.
Proof.
  intros Hload. destruct r as [v | e].
  - split.
    + destruct (c !! path) as [hit |] eqn:Hc.
      * rewrite (load_model_hit _ _ _ _ Hc) in Hload.
        injection Hload as _ _ <-. apply fs_reads_replay.
      * rewrite (load_model_miss _ _ _ Hc) in Hload.
        destruct (load_model_undecorated_run path fs c) as (r' & t & Hbody & Hr & _).
        rewrite Hbody in Hload.
        destruct r' as [v' | e']; [| discriminate].
        injection Hload as _ _ <-. exact Hr.
    + destruct (load_model_return_cached _ _ _ _ _ _ Hload) as [msgs Hc1].
      exists msgs. split; [apply fs_reads_replay |].
      intros calls fs'. apply cached_forever. exact Hc1.
  - destruct (load_model_raise_uncached _ _ _ _ _ _ Hload) as (-> & _ & Hr).
    auto.
Qed.

(** A valid artifact loaded twice, the file removed in between: one read of
    the filesystem, the same model both times. *)
Lemma load_cached_once_stub :
  load_model artifact_path stub_fs ∅ =
    (Return (Some stub_model), cache_with stub_model, [JoblibLoad artifact_path])
  /\ exists msgs,
       fs_reads (replay msgs) = []
       /\ loads [(stub_fs, artifact_path); (∅, artifact_path)] ∅ =
            ([(Return (Some stub_model), [JoblibLoad artifact_path]);
              (Return (Some stub_model), replay msgs)],
             cache_with stub_model).
Proof.
  assert (load_model artifact_path stub_fs ∅ =
            (Return (Some stub_model), cache_with stub_model,
             [JoblibLoad artifact_path])) as Hload by reflexivity.
  split; [exact Hload |].
  destruct (load_cached_once _ _ _ _ _ _ Hload) as (_ & msgs & Hquiet & Hlater).
  exists msgs. split; [exact Hquiet |].
  pose proof (Hlater [] ∅) as Hsecond.
  cbn [loads snd] in Hsecond. cbn [loads]. rewrite Hload, Hsecond.
  reflexivity.
Defined.

(** C5 as stated fails: the artifact that is not a pickle is deserialised
    at every call. *)
Lemma corrupt_artifact_read_twice :
  loads [(corrupt_fs, artifact_path); (corrupt_fs, artifact_path)] ∅ =
    ([(Raise (mkExc UnpicklingError "invalid load key, 'x'."), [JoblibLoad artifact_path]);
      (Raise (mkExc UnpicklingError "invalid load key, 'x'."), [JoblibLoad artifact_path])],
     ∅)
  /\ fs_reads ([JoblibLoad artifact_path] ++ [JoblibLoad artifact_path]) =
       [artifact_path; artifact_path].
Proof. split; vm_compute; reflexivity. Qed.

(** A run of the script changes the cache as its one [load_model] call
    does, so what holds after any sequence of loads holds after any
    sequence of runs. *)
Lemma script_cache w fs c :
  snd (fst (script w fs c)) = snd (fst (load_model artifact_path fs c)).
Proof.
  rewrite script_run.
  destruct (load_model artifact_path fs c) as [[[model | e] c1] t1]; reflexivity.
Qed.

Lemma session_cache runs : forall c,
  snd (session runs c) =
  snd (loads (map (fun run => (fst run, artifact_path)) runs) c).
Proof.
  induction runs as [| [fs w] runs IH]; intros c; [reflexivity |].
  cbn [session loads map fst].
  pose proof (script_cache w fs c) as Hc.
  destruct (script w fs c) as [[r c1] t1].
  destruct (load_model artifact_path fs c) as [[r' c1'] t1'].
  cbn [fst snd] in Hc. subst c1'.
  specialize (IH c1).
  destruct (session runs c1) as [outs c2].
  destruct (loads _ c1) as [outs' c2']. exact IH.
Qed.

(** C7: the load of a path with no file returns [None] (after the not-found
    message) and raises nothing; a later load of a different path that holds
    a valid artifact returns its model. *)
Theorem missing_then_valid (p1 p2 : string) fs1 fs2 c (m : Model) :
  c !! p1 = None ->
  c !! p2 = None ->
  fs1 !! p1 = None ->
  p1 <> p2 ->
  fs2 !! p2 = Some (Pickle (Some m)) ->
  load_model p1 fs1 c =
    (Return None, <[p1 := not_found_entry p1]> c,
     [JoblibLoad p1; Render Main (StError (not_found_text p1))])
  /\ load_model p2 fs2 (<[p1 := not_found_entry p1]> c) =
       (Return (Some m),
        <[p2 := mkCached (Some m) []]> (<[p1 := not_found_entry p1]> c),
        [JoblibLoad p2]).
Proof.
  intros Hc1 Hc2 Hfs1 Hne Hfs2. split.
  - rewrite (load_model_cold _ _ _ Hc1), Hfs1. reflexivity.
  - rewrite load_model_cold, Hfs2; [reflexivity |].
    rewrite lookup_insert_ne; [exact Hc2 | exact Hne].
Qed.

(** A missing path first, the stub artifact second. *)
Lemma missing_then_valid_stub :
  ((∅ : gmap string CachedResult) !! other_path = None
   /\ (∅ : gmap string CachedResult) !! artifact_path = None
   /\ (∅ : gmap string File) !! other_path = None
   /\ other_path <> artifact_path
   /\ stub_fs !! artifact_path = Some (Pickle (Some stub_model)))
  /\ fst (fst (load_model other_path ∅ ∅)) = Return None
  /\ fst (fst (load_model artifact_path stub_fs
                 (<[other_path := not_found_entry other_path]> ∅))) =
       Return (Some stub_model).
Proof.
  assert ((∅ : gmap string CachedResult) !! other_path = None) as H1 by reflexivity.
  assert ((∅ : gmap string CachedResult) !! artifact_path = None) as H2 by reflexivity.
  assert ((∅ : gmap string File) !! other_path = None) as H3 by reflexivity.
  assert (other_path <> artifact_path) as H4 by discriminate.
  assert (stub_fs !! artifact_path = Some (Pickle (Some stub_model))) as H5
    by reflexivity.
  split; [auto |].
  destruct (missing_then_valid other_path artifact_path ∅ stub_fs ∅ stub_model
              H1 H2 H3 H4 H5) as [Hfirst Hsecond].
  rewrite Hfirst, Hsecond. split; reflexivity.
Defined.

(** C9: the [None] of a load that found no file is stored under the path:
    every later call with that path, after any other loads and on any
    filesystem, also one that now holds the file, returns [None] from the
    cache, renders the stored message again and does not read the
    filesystem. *)
Theorem failed_load_stays_cached path fs c :
  c !! path = None ->
  fs !! path = None ->
  load_model path fs c =
    (Return None, <[path := not_found_entry path]> c, not_found_events path)
  /\ (forall calls fs',
        load_model path fs' (snd (loads calls (<[path := not_found_entry path]> c))) =
          (Return None, snd (loads calls (<[path := not_found_entry path]> c)),
           [Render Main (StError (not_found_text path))]))
  /\ fs_reads [Render Main (StError (not_found_text path))] = [].
Proof.
  intros Hc Hfs. split; [| split; [| reflexivity]].
  - rewrite (load_model_cold _ _ _ Hc), Hfs. reflexivity.
  - intros calls fs'.
    rewrite (cached_forever path _ None [(Main, StError (not_found_text path))] calls fs');
      [reflexivity | apply lookup_insert_eq].
Qed.

(** The artifact put in place after a failed load: the second load still
    returns [None] and reads no file. *)
Lemma placing_the_file_does_not_recover :
  ((∅ : gmap string CachedResult) !! artifact_path = None
   /\ (∅ : gmap string File) !! artifact_path = None)
  /\ loads [(∅, artifact_path); (stub_fs, artifact_path)] ∅ =
       ([(Return None, not_found_events artifact_path);
         (Return None, [Render Main (StError (not_found_text artifact_path))])],
        <[artifact_path := not_found_entry artifact_path]> ∅).
Proof.
  assert ((∅ : gmap string CachedResult) !! artifact_path = None) as H1 by reflexivity.
  assert ((∅ : gmap string File) !! artifact_path = None) as H2 by reflexivity.
  split; [auto |].
  destruct (failed_load_stays_cached artifact_path ∅ ∅ H1 H2) as (Hfirst & Hlater & _).
  pose proof (Hlater [] stub_fs) as Hsecond. cbn [loads snd] in Hsecond.
  cbn [loads]. rewrite Hfirst, Hsecond. reflexivity.
Defined.

End Loader.

(** ** The input controls *)

Section Controls.

(** The keyword arguments of the three calls are the numbers of the table of
    the specification, the defaults written as the integers 65, 200, 350. *)
Lemma slider_arguments :
  map control_of [iron_slider; air_slider; amina_slider] = spec_controls
  /\ map value [iron_slider; air_slider; amina_slider] = [PyInt 65; PyInt 200; PyInt 350].
Proof. split; vm_compute; reflexivity. Qed.

(** C8, on the code: the first slider call passes the integer default 65
    with float bounds and step, so [st.slider] raises its type error; the
    sidebar ends there, after the header and the text, and no slider is
    drawn, in any run. *)
Theorem sliders_never_drawn (w : Widgets) (fs : gmap string File)
  (c : gmap string CachedResult) :
  (exists e,
     fst (fst (sidebar w fs c)) = Raise e /\ exc_class e = StreamlitAPIException)
  /\ is_int (value iron_slider) = true
  /\ map is_int [min_value iron_slider; max_value iron_slider; step iron_slider] =
       [false; false; false]
  /\ sliders_of (snd (sidebar w fs c)) = []
  /\ rendered (snd (sidebar w fs c)) =
       [StHeader "⚙️ Parámetros de Entrada";
        StMarkdown "
    Ajusta los deslizadores para que coincidan con los parámetros operativos del proceso de flotación.
    "].
Proof.
  rewrite sidebar_run.
  split; [exists (slider_type_error iron_slider); split; reflexivity |].
  repeat split; reflexivity.
Qed.

(** The [value] arguments as floats: 65, 200 and 350. *)
Example default_widgets_values :
  default_widgets true = mkWidgets 65 200 350 true.
Proof. vm_compute. reflexivity. Qed.

(** With a float default, as the bounds are, the same call draws the
    control and returns what it holds. *)
Example float_default_slider_draws :
  st_slider (mkSlider (label iron_slider) (PyFloat 62.05) (PyFloat 68.01)
               (PyFloat 65) (PyFloat 0.1)) 65 ∅ ∅ =
    (Return 65%float, ∅,
     [Render Main
        (StSlider (mkSlider (label iron_slider) (PyFloat 62.05) (PyFloat 68.01)
                     (PyFloat 65) (PyFloat 0.1)))]).
Proof. reflexivity. Qed.

End Controls.

(** ** Runs of the page *)

Section Runs.

Implicit Types (fs : gmap string File) (c : gmap string CachedResult).
Implicit Types (path : string) (w : Widgets) (m : Model) (t : list Event).

Lemma successes_app t1 t2 : successes (t1 ++ t2) = successes t1 ++ successes t2.
Proof. unfold successes. apply flat_map_app. Qed.

Lemma errors_app t1 t2 : errors (t1 ++ t2) = errors t1 ++ errors t2.
Proof. unfold errors. apply flat_map_app. Qed.

Lemma warnings_app t1 t2 : warnings (t1 ++ t2) = warnings t1 ++ warnings t2.
Proof. unfold warnings. apply flat_map_app. Qed.

Lemma buttons_app t1 t2 : buttons (t1 ++ t2) = buttons t1 ++ buttons t2.
Proof. unfold buttons. apply flat_map_app. Qed.

(** The prediction block reads no file. *)
Lemma prediction_logic_no_read model w iron air amina fs c :
  fs_reads (snd (prediction_logic model w iron air amina fs c)) = [].
Proof.
  destruct model as [m |]; [| reflexivity].
  destruct (clicked w) eqn:Hw.
  - rewrite (prediction_logic_click _ _ _ _ _ _ _ Hw).
    destruct (predict m _) as [out | e];
      [destruct (getitem0 out) as [first | e] |];
      try destruct (isinstance_Exception (exc_class e)); reflexivity.
  - rewrite (prediction_logic_idle _ _ _ _ _ _ _ Hw). reflexivity.
Qed.

(** The calls of the model in the prediction block: one on a click, none
    otherwise. *)
Lemma prediction_logic_calls m w iron air amina fs c :
  predict_calls (snd (prediction_logic (Some m) w iron air amina fs c)) =
    if clicked w then [df_input iron air amina] else [].
Proof.
  destruct (clicked w) eqn:Hw.
  - rewrite (prediction_logic_click _ _ _ _ _ _ _ Hw).
    destruct (predict m _) as [out | e];
      [destruct (getitem0 out) as [first | e] |];
      try destruct (isinstance_Exception (exc_class e)); reflexivity.
  - rewrite (prediction_logic_idle _ _ _ _ _ _ _ Hw). reflexivity.
Qed.

(** What a stored entry renders when it is hit. *)
Lemma entry_ok_replay path hit :
  entry_okb path hit = true ->
  replay (cached_messages hit) = []
  \/ (cached_value hit = None
      /\ replay (cached_messages hit) = [Render Main (StError (not_found_text path))]).
Proof.
  unfold entry_okb. destruct hit as [v msgs]; cbn [cached_messages cached_value].
  destruct msgs as [| [k el] rest]; [left; reflexivity |].
  destruct k; try discriminate.
  destruct el; try discriminate.
  destruct rest; try discriminate.
  destruct v; try discriminate.
  intros Heq. apply String.eqb_eq in Heq. subst body. right. split; reflexivity.
Qed.

(** The trace of a load, in a cache the loader has filled: at most the
    not-found message, and none at all beside a model. *)
Lemma load_model_trace path fs c r c1 t1 :
  cache_ok c ->
  load_model path fs c = (r, c1, t1) ->
  buttons t1 = [] /\ successes t1 = [] /\ warnings t1 = []
  /\ (forall m, r = Return (Some m) -> errors t1 = []).
Proof.
  intros Hok Hload.
  destruct (c !! path) as [hit |] eqn:Hc.
  - rewrite (load_model_hit _ _ _ _ Hc) in Hload. injection Hload as <- <- <-.
    destruct (entry_ok_replay path hit (Hok _ _ Hc)) as [-> | [Hv ->]].
    + repeat split; reflexivity.
    + repeat split; try reflexivity. intros m Hm. congruence.
  - rewrite (load_model_cold _ _ _ Hc) in Hload.
    destruct (fs !! path) as [[obj | e] |];
      [| destruct (isinstance_FileNotFoundError (exc_class e)) |];
      injection Hload as <- <- <-; repeat split; try reflexivity;
      intros m Hm; discriminate.
Qed.

Lemma cache_ok_insert path hit c :
  cache_ok c -> entry_okb path hit = true -> cache_ok (<[path := hit]> c).
Proof.
  intros Hok Hhit path' hit' Hlook.
  destruct (decide (path = path')) as [<- | Hne].
  - rewrite lookup_insert_eq in Hlook. injection Hlook as <-. exact Hhit.
  - rewrite lookup_insert_ne in Hlook by exact Hne. exact (Hok _ _ Hlook).
Qed.

Lemma entry_ok_not_found path : entry_okb path (not_found_entry path) = true.
Proof. unfold entry_okb; simpl. apply String.eqb_refl. Qed.

Lemma load_model_ok path fs c r c1 t1 :
  cache_ok c -> load_model path fs c = (r, c1, t1) -> cache_ok c1.
Proof.
  intros Hok Hload.
  destruct (c !! path) as [hit |] eqn:Hc.
  - rewrite (load_model_hit _ _ _ _ Hc) in Hload. injection Hload as <- <- <-. exact Hok.
  - rewrite (load_model_cold _ _ _ Hc) in Hload.
    destruct (fs !! path) as [[obj | e] |];
      [| destruct (isinstance_FileNotFoundError (exc_class e)) |];
      injection Hload as <- <- <-;
      try exact Hok;
      apply cache_ok_insert; try exact Hok;
      try apply entry_ok_not_found; reflexivity.
Qed.

Lemma loads_ok calls : forall c, cache_ok c -> cache_ok (snd (loads calls c)).
Proof.
  induction calls as [| [fs path] calls IH]; intros c Hok; [exact Hok |].
  cbn [loads].
  destruct (load_model path fs c) as [[r c1] t1] eqn:Hload.
  specialize (IH c1 (load_model_ok _ _ _ _ _ _ Hok Hload)).
  destruct (loads calls c1) as [outs c2]. exact IH.
Qed.

Lemma cache_ok_empty : cache_ok ∅.
Proof. intros path hit Hlook. rewrite lookup_empty in Hlook. discriminate. Qed.

(** X8: in a process that starts with an empty cache, after any runs of the
    script and any further calls of [load_model], every entry of the cache
    is a value stored with nothing rendered, or [None] stored with the
    not-found message of its own path. *)
Theorem cache_entries_wellformed
  (runs : list (gmap string File * Widgets))
  (calls : list (gmap string File * string)) :
  forall path hit,
    snd (loads calls (snd (session runs ∅))) !! path = Some hit ->
    cached_messages hit = []
    \/ (cached_value hit = None
        /\ cached_messages hit = [(Main, StError (not_found_text path))]).
Proof.
  intros path hit Hlook.
  assert (cache_ok (snd (loads calls (snd (session runs ∅))))) as Hok.
  { apply loads_ok. rewrite session_cache. apply loads_ok. apply cache_ok_empty. }
  specialize (Hok _ _ Hlook). revert Hok.
  unfold entry_okb. destruct hit as [v msgs]; cbn [cached_messages cached_value].
  destruct msgs as [| [k el] rest]; [left; reflexivity |].
  destruct k; try discriminate.
  destruct el; try discriminate.
  destruct rest; try discriminate.
  destruct v; try discriminate.
  intros Heq. apply String.eqb_eq in Heq. subst body. right. split; reflexivity.
Qed.

(** After one run without an artifact, the cache holds the not-found entry. *)
Lemma cache_entries_wellformed_missing :
  snd (loads [] (snd (session [(∅, default_widgets true)] ∅))) !! artifact_path =
    Some (not_found_entry artifact_path)
  /\ (cached_messages (not_found_entry artifact_path) = []
      \/ (cached_value (not_found_entry artifact_path) = None
          /\ cached_messages (not_found_entry artifact_path) =
               [(Main, StError (not_found_text artifact_path))])).
Proof.
  assert (snd (loads [] (snd (session [(∅, default_widgets true)] ∅))) !! artifact_path =
            Some (not_found_entry artifact_path)) as Hlook by (vm_compute; reflexivity).
  split; [exact Hlook |].
  exact (cache_entries_wellformed [(∅, default_widgets true)] [] artifact_path
           (not_found_entry artifact_path) Hlook).
Defined.

(** X2: the prediction block, when it ends normally, leaves the cache as it
    was and has drawn one of two things.  Without a model: the warning, no
    button, no box and no call of the model.  With a model: the button and
    no warning, and exactly one box, success or error, when the button was
    clicked, none when it was not; the model is called once, on the row of
    the three values, on a click and never otherwise. *)
Theorem page_outcomes (model : option Model) w (iron air amina : float) fs c c' t :
  prediction_logic model w iron air amina fs c = (Return tt, c', t) ->
  c' = c
  /\ ((model = None /\ warnings t = [warning_text] /\ buttons t = []
       /\ successes t = [] /\ errors t = [] /\ predict_calls t = [])
      \/ (model <> None /\ warnings t = []
          /\ buttons t = ["🚀 Predecir Concentrado de Sílice (%)"]
          /\ length (successes t) + length (errors t) = (if clicked w then 1 else 0)
          /\ predict_calls t =
               if clicked w then [df_input iron air amina] else [])).
Proof.
  intros Hrun. destruct model as [m |].
  - destruct (clicked w) eqn:Hclick.
    + rewrite (prediction_logic_click _ _ _ _ _ _ _ Hclick) in Hrun.
      destruct (predict m _) as [out | e];
        [destruct (getitem0 out) as [first | e] |];
        try destruct (isinstance_Exception (exc_class e));
        try discriminate;
        injection Hrun as <- <-;
        (split; [reflexivity |]); right; repeat split; try reflexivity; discriminate.
    + rewrite (prediction_logic_idle _ _ _ _ _ _ _ Hclick) in Hrun.
      injection Hrun as <- <-.
      split; [reflexivity |]. right. repeat split; try reflexivity; discriminate.
  - rewrite prediction_logic_none in Hrun. injection Hrun as <- <-.
    split; [reflexivity |]. left. repeat split; reflexivity.
Qed.

(** A click on the stub: the button and one box. *)
Lemma page_outcomes_stub :
  prediction_logic (Some stub_model) (mkWidgets 65 200 350 true) 65 200 350 ∅ ∅ =
    (Return tt, ∅,
     [button_event; Predict (df_input 65 200 350); subheader_event;
      Render Main (StSuccess (success_text 2.5)); info_event])
  /\ length
       (successes
          [button_event; Predict (df_input 65 200 350); subheader_event;
           Render Main (StSuccess (success_text 2.5)); info_event])
     + length
         (errors
            [button_event; Predict (df_input 65 200 350); subheader_event;
             Render Main (StSuccess (success_text 2.5)); info_event]) = 1.
Proof.
  assert (prediction_logic (Some stub_model) (mkWidgets 65 200 350 true)
            65 200 350 ∅ ∅ =
            (Return tt, ∅,
             [button_event; Predict (df_input 65 200 350); subheader_event;
              Render Main (StSuccess (success_text 2.5)); info_event])) as Hrun
    by reflexivity.
  split; [exact Hrun |].
  destruct (page_outcomes _ _ _ _ _ _ _ _ _ Hrun) as [_ [(Hnone & _) | (_ & _ & _ & Hone & _)]];
    [discriminate | exact Hone].
Defined.

(** X4: once [load_model] has returned, with a model or with [None], no
    later run touches the artifact: on any filesystem, also one where the
    file has appeared or is gone, the run reads no file and leaves the cache
    as it is. *)
Theorem loaded_model_needs_no_file (v : option Model) fs c c1 t1 w fs' :
  load_model artifact_path fs c = (Return v, c1, t1) ->
  fs_reads (snd (script w fs' c1)) = []
  /\ snd (fst (script w fs' c1)) = c1.
Proof.
  intros Hload.
  destruct (load_model_return_cached _ _ _ _ _ _ Hload) as [msgs Hc1].
  rewrite script_run, (load_model_hit artifact_path fs' c1 _ Hc1).
  cbn [fst snd]. rewrite !fs_reads_app, fs_reads_replay. split; reflexivity.
Qed.

(** The stub loaded, then the file removed: the next run reads nothing. *)
Lemma loaded_model_needs_no_file_stub :
  load_model artifact_path stub_fs ∅ =
    (Return (Some stub_model), cache_with stub_model, [JoblibLoad artifact_path])
  /\ fs_reads (snd (script (mkWidgets 65 200 350 true) ∅ (cache_with stub_model))) = []
  /\ snd (fst (script (mkWidgets 65 200 350 true) ∅ (cache_with stub_model))) =
       cache_with stub_model.
Proof.
  assert (load_model artifact_path stub_fs ∅ =
            (Return (Some stub_model), cache_with stub_model,
             [JoblibLoad artifact_path])) as Hload by reflexivity.
  split; [exact Hload |].
  exact (loaded_model_needs_no_file (Some stub_model) stub_fs ∅ _ _
           (mkWidgets 65 200 350 true) ∅ Hload).
Defined.

(** X5: a run of the script writes the cache at one place only, the entry
    of "modelo.joblib", and only when that entry is not there yet: every
    other entry, and that entry once it exists, is after the run what it was
    before. *)
Theorem script_cache_footprint w fs c path :
  path <> artifact_path \/ is_Some (c !! artifact_path) ->
  snd (fst (script w fs c)) !! path = c !! path.
Proof.
  intros Hcase. rewrite script_cache.
  destruct (c !! artifact_path) as [hit |] eqn:Hc.
  - rewrite (load_model_hit _ _ _ _ Hc). reflexivity.
  - destruct Hcase as [Hne | [hit Hhit]]; [| discriminate].
    rewrite (load_model_cold _ _ _ Hc).
    destruct (fs !! artifact_path) as [[obj | e] |];
      [| destruct (isinstance_FileNotFoundError (exc_class e)) |];
      cbn [fst snd]; try reflexivity;
      apply lookup_insert_ne; congruence.
Qed.

(** An entry of another path survives a run that loads the stub. *)
Lemma script_cache_footprint_other :
  (other_path <> artifact_path
   \/ is_Some ((<[other_path := not_found_entry other_path]> ∅ : gmap string CachedResult)
                 !! artifact_path))
  /\ snd (fst (script (default_widgets true) stub_fs
                 (<[other_path := not_found_entry other_path]> ∅))) !! other_path =
       (<[other_path := not_found_entry other_path]> ∅ : gmap string CachedResult)
         !! other_path.
Proof.
  assert (other_path <> artifact_path) as Hne by discriminate.
  split; [left; exact Hne |].
  exact (script_cache_footprint (default_widgets true) stub_fs
           (<[other_path := not_found_entry other_path]> ∅) other_path
           (or_introl Hne)).
Defined.

(** X6: every run of the script ends with an exception, and none calls the
    model or draws the button.  The exception is that of the
    deserialisation of an artifact that was not cached, which is not a
    [FileNotFoundError]; or, whenever [load_model] returns, the
    [StreamlitAPIException] of the first [st.slider] call. *)
Theorem abort_causes w fs c :
  exists e,
    fst (fst (script w fs c)) = Raise e
    /\ predict_calls (snd (script w fs c)) = []
    /\ ((c !! artifact_path = None /\ fs !! artifact_path = Some (Corrupt e)
         /\ isinstance_FileNotFoundError (exc_class e) = false
         /\ snd (fst (script w fs c)) = c)
        \/ (exc_class e = StreamlitAPIException
            /\ exists v, fst (fst (load_model artifact_path fs c)) = Return v)).
Proof.
  rewrite script_run.
  destruct (load_model artifact_path fs c) as [[[model | e] c1] t1] eqn:Hload.
  - exists (slider_type_error iron_slider). cbn [fst snd].
    rewrite !predict_calls_app, (load_model_no_predict _ _ _ _ _ _ Hload).
    split; [reflexivity |]. split; [reflexivity |]. right. eauto.
  - exists e. cbn [fst snd].
    rewrite !predict_calls_app, (load_model_no_predict _ _ _ _ _ _ Hload).
    split; [reflexivity |]. split; [reflexivity |]. left.
    destruct (load_model_raise_uncached _ _ _ _ _ _ Hload) as (-> & Hc & _).
    rewrite (load_model_cold _ _ _ Hc) in Hload.
    destruct (fs !! artifact_path) as [[obj | e1] |]; try discriminate.
    destruct (isinstance_FileNotFoundError (exc_class e1)) eqn:Hcls; [discriminate |].
    injection Hload as ->. auto.
Qed.

(** X7: the page configuration is the first step of every run, before the
    model is loaded and whatever the run does afterwards. *)
Theorem page_config_first w fs c :
  exists rest,
    snd (script w fs c) =
      Render Main
        (StPageConfig
           "Predictor de Concentrado de Sílice (%) en un proceso de Flotación"
           "📊🧪🫧" "wide")
      :: rest.
Proof.
  rewrite script_run.
  destruct (load_model artifact_path fs c) as [[[model | e] c1] t1];
    eexists; reflexivity.
Qed.

(** X11: an artifact that fails to deserialise poisons nothing: the run
    ends with the exception and stores no entry, and a later run that finds
    a valid artifact at the path reads it, once, and stores its model. *)
Theorem corrupt_artifact_recovers w w' fs fs' c e m :
  c !! artifact_path = None ->
  fs !! artifact_path = Some (Corrupt e) ->
  isinstance_FileNotFoundError (exc_class e) = false ->
  fs' !! artifact_path = Some (Pickle (Some m)) ->
  script w fs c = (Raise e, c, page_config_events ++ [JoblibLoad artifact_path])
  /\ load_model artifact_path fs' (snd (fst (script w fs c))) =
       (Return (Some m), <[artifact_path := mkCached (Some m) []]> c,
        [JoblibLoad artifact_path])
  /\ snd (fst (script w' fs' (snd (fst (script w fs c))))) =
       <[artifact_path := mkCached (Some m) []]> c
  /\ fs_reads (snd (script w' fs' (snd (fst (script w fs c))))) = [artifact_path].
Proof.
  intros Hc Hfs Hcls Hfs'.
  assert (script w fs c = (Raise e, c, page_config_events ++ [JoblibLoad artifact_path]))
    as Hrun.
  { rewrite script_run, (load_model_cold _ _ _ Hc), Hfs, Hcls. reflexivity. }
  assert (load_model artifact_path fs' c =
            (Return (Some m), <[artifact_path := mkCached (Some m) []]> c,
             [JoblibLoad artifact_path])) as Hload.
  { rewrite (load_model_cold _ _ _ Hc), Hfs'. reflexivity. }
  rewrite Hrun. cbn [fst snd].
  split; [reflexivity |]. split; [exact Hload |].
  rewrite script_run, Hload. split; reflexivity.
Qed.

(** The artifact that is not a pickle, replaced by the stub. *)
Lemma corrupt_artifact_recovers_stub :
  ((∅ : gmap string CachedResult) !! artifact_path = None
   /\ corrupt_fs !! artifact_path =
        Some (Corrupt (mkExc UnpicklingError "invalid load key, 'x'."))
   /\ isinstance_FileNotFoundError UnpicklingError = false
   /\ stub_fs !! artifact_path = Some (Pickle (Some stub_model)))
  /\ snd (fst (script (default_widgets true) stub_fs
                 (snd (fst (script (default_widgets true) corrupt_fs ∅))))) =
       <[artifact_path := mkCached (Some stub_model) []]> ∅
  /\ fs_reads (snd (script (default_widgets true) stub_fs
                      (snd (fst (script (default_widgets true) corrupt_fs ∅))))) =
       [artifact_path].
Proof.
  assert ((∅ : gmap string CachedResult) !! artifact_path = None) as H1 by reflexivity.
  assert (corrupt_fs !! artifact_path =
            Some (Corrupt (mkExc UnpicklingError "invalid load key, 'x'."))) as H2
    by reflexivity.
  assert (isinstance_FileNotFoundError UnpicklingError = false) as H3 by reflexivity.
  assert (stub_fs !! artifact_path = Some (Pickle (Some stub_model))) as H4
    by reflexivity.
  split; [auto |].
  exact (proj2 (proj2
           (corrupt_artifact_recovers (default_widgets true) (default_widgets true)
              corrupt_fs stub_fs ∅ _ stub_model H1 H2 H3 H4))).
Defined.

(** X9: the number in the success box is the prediction rounded to the
    nearest hundredth, ties to the even hundredth.  For a finite non-zero
    prediction of sign [s] and magnitude [m * 2^e], written [n / d] with
    [n = m * 2^max(0,e)] and [d = 2^max(0,-e)], the box shows the sign and
    the count [h] of hundredths printed with two decimals, where
    [|100 * n - h * d| <= d / 2], and [h] is even when the distance is
    exactly [d / 2]. *)
Theorem displayed_value_nearest (x : float) (s : bool) (m : positive) (e : Z) :
  Prim2SF x = S754_finite s m e ->
  success_text x =
    "**Concentrado Predicho:** `" +:+ Fmt.fixed2 s (Fmt.hundredths m e) +:+ "%`"
  /\ (0 <= Fmt.hundredths m e)%Z
  /\ (2 * Z.abs (100 * (Z.pos m * 2 ^ Z.max 0 e)
                 - Fmt.hundredths m e * 2 ^ Z.max 0 (- e))
      <= 2 ^ Z.max 0 (- e))%Z
  /\ ((2 * Z.abs (100 * (Z.pos m * 2 ^ Z.max 0 e)
                  - Fmt.hundredths m e * 2 ^ Z.max 0 (- e))
       = 2 ^ Z.max 0 (- e))%Z ->
      Z.even (Fmt.hundredths m e) = true).
Proof.
  intros Hx. split.
  { unfold success_text, Fmt.format_2f. rewrite Hx. reflexivity. }
  unfold Fmt.hundredths. destruct (Z.leb_spec 0 e) as [Hpos | Hneg].
  - rewrite (Z.max_r 0 e) by lia. rewrite (Z.max_l 0 (- e)) by lia.
    rewrite Z.pow_0_r.
    assert (0 < 2 ^ e)%Z as Hpow by (apply Z.pow_pos_nonneg; lia).
    replace (100 * (Z.pos m * 2 ^ e) - Z.pos m * 2 ^ e * 100 * 1)%Z with 0%Z by ring.
    split; [nia |]. split; [simpl; lia |]. simpl. intros Habs. discriminate.
  - rewrite (Z.max_l 0 e) by lia. rewrite (Z.max_r 0 (- e)) by lia.
    rewrite Z.pow_0_r.
    assert (0 < 2 ^ (- e))%Z as Hpow by (apply Z.pow_pos_nonneg; lia).
    replace (100 * (Z.pos m * 1))%Z with (Z.pos m * 100)%Z by ring.
    split; [apply round_half_even_nonneg; lia |].
    split; [apply round_half_even_nearest; exact Hpow |].
    apply round_half_even_tie; exact Hpow.
Qed.

(** The prediction 0.125, a tie between 0.12 and 0.13: the box shows 0.12. *)
Lemma displayed_value_nearest_tie :
  Prim2SF 0.125 = S754_finite false 4503599627370496 (-55)
  /\ success_text 0.125 = "**Concentrado Predicho:** `0.12%`"
  /\ Fmt.hundredths 4503599627370496 (-55) = 12%Z.
Proof.
  assert (Prim2SF 0.125 = S754_finite false 4503599627370496 (-55)) as Hx
    by (vm_compute; reflexivity).
  split; [exact Hx |].
  destruct (displayed_value_nearest 0.125 false 4503599627370496 (-55) Hx)
    as (Htext & _).
  split; [rewrite Htext |]; vm_compute; reflexivity.
Defined.

(** X10: after a click, the heading of the result is drawn exactly when the
    call of the model returned: above the success box, and also above the
    error box when taking the first element failed, but not when the call
    itself raised. *)
Theorem heading_iff_predict_returned m w (iron air amina : float) fs c :
  clicked w = true ->
  In (Render Main (StSubheader "📈 Resultado de la Predicción"))
     (snd (prediction_logic (Some m) w iron air amina fs c))
  <-> exists out, predict m (df_input iron air amina) = Return out.
Proof.
  intros Hclick. rewrite (prediction_logic_click _ _ _ _ _ _ _ Hclick).
  destruct (predict m (df_input iron air amina)) as [out | e].
  - split; [intros _; exists out; reflexivity |]. intros _.
    destruct (getitem0 out) as [first | e];
      [| destruct (isinstance_Exception (exc_class e))];
      cbn [snd]; right; right; left; reflexivity.
  - split; [| intros [out Hout]; discriminate].
    destruct (isinstance_Exception (exc_class e)); cbn [snd In];
      intros Hin; repeat (destruct Hin as [Hin | Hin]; try discriminate);
      contradiction.
Qed.

(** The empty answer of the silent model: heading and error box. *)
Lemma heading_iff_predict_returned_silent :
  clicked (mkWidgets 65 200 350 true) = true
  /\ (In (Render Main (StSubheader "📈 Resultado de la Predicción"))
        (snd (prediction_logic (Some silent_model) (mkWidgets 65 200 350 true)
                65 200 350 ∅ ∅))
      <-> exists out, predict silent_model (df_input 65 200 350) = Return out).
Proof.
  split; [reflexivity |].
  exact (heading_iff_predict_returned silent_model (mkWidgets 65 200 350 true)
           65 200 350 ∅ ∅ eq_refl).
Defined.

End Runs.
